(** * World Bank Population Predictor: the inference glue of [app.py]

    The program is one Streamlit script.  It loads a pickled regression
    model, reads four form fields, one-hot encodes the three categorical
    ones with [pd.get_dummies], aligns the resulting single-row frame
    with the model's [feature_names_in_], and calls [model.predict].

    The embedding below follows the script line by line:
    - a single-row [DataFrame] is an ordered list of named cells;
    - Python exceptions are the [Raise] case of [result];
    - the Streamlit calls of one script run are collected in a log, and
      a run ends either normally or with an exception nobody caught;
    - lines 58-79 are given a second time as statements on a heap of
      frame objects, with the in-place store of line 75, and shown to
      compute the same frame whatever the heap holds. *)

From Stdlib Require Import String Ascii ZArith List Bool Arith Lia DecimalString.
Import ListNotations.
Local Open Scope string_scope.
Local Open Scope list_scope.

Set Implicit Arguments.

(** ** Exceptions and fallible computations *)

Inductive exn : Type :=
| FileNotFoundError
| KeyError (missing : list string)   (* "[...] not in index" *)
| ValueError (msg : string)
| OtherError (msg : string).         (* any other subclass of Exception *)

Inductive result (A : Type) : Type :=
| Ok (a : A)
| Raise (e : exn).

Arguments Ok {A} a.
Arguments Raise {A} e.

Definition rbind {A B : Type} (r : result A) (k : A -> result B) : result B :=
  match r with
  | Ok a => k a
  | Raise e => Raise e
  end.

Declare Scope result_scope.
Delimit Scope result_scope with result.
Notation "x <- r ;; k" := (rbind r (fun x => k))
  (at level 61, r at next level, right associativity) : result_scope.

(** ** Python values held in a frame cell *)

Inductive value : Type :=
| VStr (s : string)
| VInt (z : Z).

(** [str(v)], as used by [get_dummies] to name the level of a cell. *)
Definition str (v : value) : string :=
  match v with
  | VStr s => s
  | VInt z => NilZero.string_of_int (Z.to_int z)
  end.

(** ** Single-row data frames

    Every frame of the script has exactly one row, so a frame is the
    ordered list of its columns, each a label with the cell of that
    row.  Labels may repeat, as in pandas. *)

Definition frame : Type := list (string * value).

Definition columns (df : frame) : list string := map fst df.

(** [label in index] *)
Definition contains (label : string) (index : list string) : bool :=
  existsb (String.eqb label) index.

(** [df.shape] *)
Definition shape (df : frame) : nat * nat := (1, length df).

(** [df[label] = v]: overwrite every column carrying the label, or
    append a new last column when there is none. *)
Definition setitem (df : frame) (label : string) (v : value) : frame :=
  if contains label (columns df)
  then map (fun c => if String.eqb (fst c) label then (fst c, v) else c) df
  else df ++ [(label, v)].

(** The columns of [df] carrying [label], in frame order. *)
Definition loc (df : frame) (label : string) : frame :=
  filter (fun c => String.eqb (fst c) label) df.

(** The labels of a request that the frame does not have. *)
Definition missing_labels (df : frame) (labels : list string) : list string :=
  filter (fun l => negb (contains l (columns df))) labels.

(** [df[labels]]: the requested columns in the requested order;
    [KeyError] when a label is not a column. *)
Definition getitem (df : frame) (labels : list string) : result frame :=
  match missing_labels df labels with
  | [] => Ok (flat_map (loc df) labels)
  | missing => Raise (KeyError missing)
  end.

(** [df.drop(labels, axis=1)] *)
Definition drop (df : frame) (labels : list string) : result frame :=
  match missing_labels df labels with
  | [] => Ok (filter (fun c => negb (contains (fst c) labels)) df)
  | missing => Raise (KeyError missing)
  end.

(** The indicator column of one cell: a one-row column has one level,
    named [<prefix>_<level>], and the row belongs to it.  The cell is
    [uint8] 1 before pandas 2.0 and [True] since; both are the number
    1, which is what [VInt 1] records. *)
Definition get_dummies_1d (v : value) (prefix : string) : frame :=
  [((prefix ++ "_" ++ str v)%string, VInt 1)].

(** [pd.get_dummies(data, columns=cols)]: the columns that are not
    encoded come first, then the indicators of each listed column in
    the order of the list. *)
Definition get_dummies (data : frame) (cols : list string) : result frame :=
  (data_to_encode <- getitem data cols ;;
   with_dummies <- (if Nat.eqb (length data_to_encode) (length data)
                    then Ok []
                    else drop data cols) ;;
   Ok (with_dummies ++
       flat_map (fun c => get_dummies_1d (snd c) (fst c)) data_to_encode))%result.

(** ** The form input *)

Record raw_input : Type := {
  country_iso : string;
  year : Z;
  country_id : string;
  country_name : string
}.

(** ** The sequence held in [training_columns]

    [training_columns] is either the attribute [feature_names_in_] of
    the unpickled object (for a scikit-learn estimator an [ndarray] of
    strings; any other object may carry a list) or the literal [[]]. *)

Inductive py_seq : Type :=
| PyList (items : list string)
| NdArray (items : list string).

Definition items (s : py_seq) : list string :=
  match s with
  | PyList l => l
  | NdArray l => l
  end.

(** [len(s)] *)
Definition len (s : py_seq) : nat := length (items s).

(** [bool(s)].  A list is true when it is not empty.  An array of
    more than one element has no truth value ([ValueError]); an array
    of one element has the truth value of that element, a string.
    The empty array has no truth value either ([ValueError], NumPy
    2.2 and later); NumPy up to 2.1 answered [False] there with a
    deprecation warning, and the script pins no version, so the
    statements about whole runs below are worded to hold under both
    behaviours. *)
Definition truth (s : py_seq) : result bool :=
  match s with
  | PyList l => Ok (negb (Nat.eqb (length l) 0))
  | NdArray [] =>
      Raise (ValueError
        "The truth value of an empty array is ambiguous. Use `array.size > 0` to check that an array is not empty.")
  | NdArray [x] => Ok (negb (String.eqb x ""))
  | NdArray _ =>
      Raise (ValueError
        "The truth value of an array with more than one element is ambiguous. Use a.any() or a.all()")
  end.

(** ** The unpickled model *)

(** [model.predict(X)[0]]: the script only ever takes [int(prediction)],
    so a finite number is kept as its integer part. *)
Inductive number : Type :=
| Finite (int_part : Z)
| NaN.

(** [int(x)] *)
Definition int (x : number) : result Z :=
  match x with
  | Finite z => Ok z
  | NaN => Raise (ValueError "cannot convert float NaN to integer")
  end.

Record model : Type := {
  feature_names_in_ : option py_seq;      (* [None]: no such attribute *)
  predict : frame -> result number
}.

(** ** Lines 58-79: encoding and alignment *)

(** Lines 58-63. *)
Definition input_df (raw : raw_input) : frame :=
  [ ("countryiso3code", VStr (country_iso raw));
    ("date", VInt (year raw));
    ("country.id", VStr (country_id raw));
    ("country.value", VStr (country_name raw)) ].

Definition categorical : list string :=
  ["countryiso3code"; "country.id"; "country.value"].

(** Line 66. *)
Definition input_encoded (raw : raw_input) : result frame :=
  get_dummies (input_df raw) categorical.

(** Line 70. *)
Definition training_columns (m : model) : py_seq :=
  match feature_names_in_ m with
  | Some names => names
  | None => PyList []
  end.

(** Lines 73-75. *)
Definition fill_missing (names : list string) (df : frame) : frame :=
  fold_left
    (fun acc col =>
       if negb (contains col (columns acc)) then setitem acc col (VInt 0) else acc)
    names df.

(** Lines 78-79. *)
Definition reorder (names : list string) (df : frame) : result frame :=
  if Nat.ltb 0 (length names) then getitem df names else Ok df.

(** Lines 70-79 on an encoded frame. *)
Definition align (encoded : frame) (names : py_seq) : result frame :=
  reorder (items names) (fill_missing (items names) encoded).

(** Lines 58-79: the frame handed to [model.predict]. *)
Definition features (raw : raw_input) (names : py_seq) : result frame :=
  (encoded <- input_encoded raw ;; align encoded names)%result.

(** ** One run of the script

    Streamlit re-runs the whole script on every interaction.  A run
    writes elements to the page in order and ends normally or with an
    exception that nothing caught; Streamlit then shows the traceback
    and abandons the rest of that run (the server keeps serving). *)

Inductive message : Type :=
| Text (s : string)
| KeyValue (key : string) (v : value)        (* f"**{key}:** {value}" *)
| PredictionFailed (e : exn)                 (* line 105 *)
| InputShape (s : nat * nat)                 (* line 109 *)
| ModelExpects (n : option nat)              (* line 110, [None] prints Unknown *)
| Approximately (name : string) (population : Z) (yr : Z)    (* line 102 *)
| ExampleCodes (code id : string).           (* line 134 *)

Inductive element : Type :=
| set_page_config
| title
| write (m : message)
| error (m : message)
| success (m : message)
| info (m : message)
| header (s : string)
| markdown (s : string)
| text_input (label : string)
| number_input (label : string)
| button (label : string)
| metric (label : string) (shown : Z)
| sidebar_header (s : string)
| sidebar_write (m : message)
| sidebar_markdown (s : string).

(** A script fragment: what it wrote, and how it ended. *)
Definition script (A : Type) : Type := (list element * result A)%type.

Definition ret {A : Type} (a : A) : script A := ([], Ok a).

Definition bind {A B : Type} (c : script A) (k : A -> script B) : script B :=
  match c with
  | (out, Ok a) => let (out', r) := k a in (out ++ out', r)
  | (out, Raise e) => (out, Raise e)
  end.

Definition emit (e : element) : script unit := ([e], Ok tt).

Definition lift {A : Type} (r : result A) : script A := ([], r).

(** [try: body except Exception as e: handler e] *)
Definition try_except {A : Type} (body : script A) (handler : exn -> script A)
  : script A :=
  match body with
  | (out, Ok a) => (out, Ok a)
  | (out, Raise e) => let (out', r) := handler e in (out ++ out', r)
  end.

Declare Scope script_scope.
Delimit Scope script_scope with script.
Notation "x <- c ;; k" := (bind c (fun x => k))
  (at level 61, c at next level, right associativity) : script_scope.
Notation "c ;; k" := (bind c (fun _ => k))
  (at level 61, right associativity) : script_scope.

Definition written {A : Type} (c : script A) : list element := fst c.
Definition outcome {A : Type} (c : script A) : result A := snd c.

(** What a run depends on: what [joblib.load] does, the current
    widget values, and whether the button was clicked. *)
Record session : Type := {
  joblib_load : result model;
  form : raw_input;
  clicked : bool
}.

(** Lines 14-21.  Only [FileNotFoundError] is handled; any other
    exception of [joblib.load] leaves the function.  The decorator
    [st.cache_resource] keeps the returned object for later runs and
    plays no part within one run. *)
Definition load_model (s : session) : script (option model) :=
  match joblib_load s with
  | Ok m => ret (Some m)
  | Raise FileNotFoundError =>
      (emit (error (Text "Model file not found! Please make sure 'machine_model.pkl' is in the same folder.")) ;;
       ret None)%script
  | Raise e => lift (Raise e)
  end.

(** Lines 44-49. *)
Definition input_data (raw : raw_input) : list (string * value) :=
  [ ("Country Code", VStr (country_iso raw));
    ("Year", VInt (year raw));
    ("Country ID", VStr (country_id raw));
    ("Country Name", VStr (country_name raw)) ].

Fixpoint emit_all (es : list element) : script unit :=
  match es with
  | [] => ret tt
  | e :: rest => (emit e ;; emit_all rest)%script
  end.

(** Lines 104-110. *)
Definition report_failure (aligned : frame) (names : py_seq) (e : exn)
  : script unit :=
  (emit (error (PredictionFailed e)) ;;
   emit (write (Text "**Debug Info:**")) ;;
   emit (write (InputShape (shape aligned))) ;;
   known <- lift (truth names) ;;
   emit (write (ModelExpects (if known then Some (len names) else None))))%script.

(** Lines 81-102. *)
Definition show_prediction (m : model) (raw : raw_input) (aligned : frame)
  : script unit :=
  (prediction <- lift (predict m aligned) ;;
   emit (success (Text "Prediction Complete!")) ;;
   emit (markdown "---") ;;
   shown <- lift (int prediction) ;;
   emit (metric "Predicted Population" shown) ;;
   emit (markdown "---") ;;
   population <- lift (int prediction) ;;
   emit (info (Approximately (country_name raw) population (year raw))))%script.

(** Lines 56-110: the body of the button branch. *)
Definition on_predict (m : model) (raw : raw_input) : script unit :=
  (encoded <- lift (input_encoded raw) ;;
   aligned <- lift (align encoded (training_columns m)) ;;
   try_except (show_prediction m raw aligned)
              (report_failure aligned (training_columns m)))%script.

(** Lines 124-130. *)
Definition examples : list (string * (string * string)) :=
  [ ("Kenya", ("KEN", "KE")); ("USA", ("USA", "US")); ("China", ("CHN", "CN"));
    ("India", ("IND", "IN")); ("Brazil", ("BRA", "BR")) ].

(** Lines 113-138. *)
Definition sidebar : script unit :=
  (emit (sidebar_header "How to Use") ;;
   emit (sidebar_write (Text "1. Enter Country Code 2. Choose Year 3. Enter Country ID 4. Type Country Name 5. Click Predict")) ;;
   emit (sidebar_markdown "---") ;;
   emit (sidebar_header "Example Countries") ;;
   emit_all (flat_map
     (fun ex => [ sidebar_write (Text (fst ex));
                  sidebar_write (ExampleCodes (fst (snd ex)) (snd (snd ex))) ])
     examples) ;;
   emit (sidebar_markdown "---") ;;
   emit (sidebar_write (Text "Need Help?")) ;;
   emit (sidebar_write (Text "Make sure your model file 'machine_model.pkl' is in the same folder as this app!")))%script.

(** Lines 26-110: the branch [if model is not None].  The layout
    containers ([st.columns]) only place the elements and are left
    out; the order of the calls is kept. *)
Definition page (m : model) (s : session) : script unit :=
  (emit (success (Text "Model loaded successfully!")) ;;
   emit (header "Enter Information") ;;
   emit (text_input "Country Code (3 letters)") ;;
   emit (number_input "Year") ;;
   emit (text_input "Country ID (2 letters)") ;;
   emit (text_input "Country Name") ;;
   emit (header "Your Input") ;;
   emit_all (map (fun kv => write (KeyValue (fst kv) (snd kv))) (input_data (form s))) ;;
   emit (button "Predict Population") ;;
   if clicked s then on_predict m (form s) else ret tt)%script.

(** The whole script. *)
Definition app (s : session) : script unit :=
  (emit set_page_config ;;
   emit title ;;
   emit (write (Text "This app predicts population based on country and year data!")) ;;
   loaded <- load_model s ;;
   match loaded with
   | Some m => page m s
   | None => ret tt
   end ;;
   sidebar ;;
   emit (markdown "---") ;;
   emit (markdown "*Built with Streamlit | World Bank Population Data*"))%script.

(** Whether an element is one of the form's widgets. *)
Definition is_form_widget (e : element) : bool :=
  match e with
  | text_input _ | number_input _ | button _ => true
  | _ => false
  end.

Definition renders_form (out : list element) : bool := existsb is_form_widget out.

Definition is_feature_count (e : element) : bool :=
  match e with
  | write (ModelExpects _) => true
  | _ => false
  end.

(** ** Reading a frame

    Auxiliary readings of a frame, used to state what the code does. *)

(** The first cell under a label. *)
Fixpoint lookup (df : frame) (label : string) : option value :=
  match df with
  | [] => None
  | c :: rest => if String.eqb (fst c) label then Some (snd c) else lookup rest label
  end.

(** The cell read under a label, 0 when there is none. *)
Definition cell (df : frame) (label : string) : value :=
  match lookup df label with
  | Some v => v
  | None => VInt 0
  end.

(** One pass of the loop of lines 73-75. *)
Definition fill_one (acc : frame) (col : string) : frame :=
  if negb (contains col (columns acc)) then setitem acc col (VInt 0) else acc.

(** ** The convention of the specification

    The specification names indicator columns [<fieldname>_<value>]
    and describes the aligned vector position by position.  The
    definitions of this section follow its words; the theorems below
    compare them with the code. *)

Inductive field : Type := Code | Id | Name.

Definition field_eq_dec (f g : field) : {f = g} + {f <> g}.
Proof. decide equality. Defined.

Definition fieldname (f : field) : string :=
  match f with
  | Code => "countryiso3code"
  | Id => "country.id"
  | Name => "country.value"
  end.

Definition observed (f : field) (raw : raw_input) : string :=
  match f with
  | Code => country_iso raw
  | Id => country_id raw
  | Name => country_name raw
  end.

Definition indicator (f : field) (raw : raw_input) : string :=
  (fieldname f ++ "_" ++ observed f raw)%string.

(** The one-hot frame of the specification's step 1. *)
Definition one_hot (raw : raw_input) : frame :=
  [ ("date", VInt (year raw));
    (indicator Code raw, VInt 1);
    (indicator Id raw, VInt 1);
    (indicator Name raw, VInt 1) ].

(** The cell the specification puts under a schema name: the year
    under [date], 1 under the indicator of an observed value, 0
    elsewhere. *)
Definition expected_cell (raw : raw_input) (name : string) : value :=
  if String.eqb name "date" then VInt (year raw)
  else if existsb (fun f => String.eqb name (indicator f raw)) [Code; Id; Name]
       then VInt 1
       else VInt 0.

Definition expected_vector (raw : raw_input) (schema : list string) : frame :=
  map (fun name => (name, expected_cell raw name)) schema.

(** The scenario of the specification. *)
Definition kenya : raw_input :=
  {| country_iso := "KEN"; year := 2020; country_id := "KE"; country_name := "Kenya" |}.

Definition france : raw_input :=
  {| country_iso := "FRA"; year := 2020; country_id := "FR"; country_name := "France" |}.

Definition kenya_schema : list string :=
  ["date"; "countryiso3code_KEN"; "country.id_KE"; "country.value_Kenya"].

Definition usa_schema : list string := ["date"; "countryiso3code_USA"].

(** Models that answer every frame alike, to run the script on. *)
Definition constant_model (names : option py_seq) (answer : result number)
  : model :=
  {| feature_names_in_ := names; predict := fun _ => answer |}.

(** An estimator without [feature_names_in_]. *)
Definition bare_model : model := constant_model None (Ok (Finite 53771300)).

(** An estimator fitted on a frame with the two columns of
    [usa_schema], whose [predict] rejects what it is given. *)
Definition rejecting_model : model :=
  constant_model (Some (NdArray usa_schema))
                 (Raise (ValueError "could not convert string to float")).

(** The same with the names in a plain list. *)
Definition rejecting_list_model : model :=
  constant_model (Some (PyList usa_schema))
                 (Raise (ValueError "could not convert string to float")).

Definition click (m : result model) (raw : raw_input) : session :=
  {| joblib_load := m; form := raw; clicked := true |}.

Definition is_metric (e : element) : bool :=
  match e with
  | metric _ _ => true
  | _ => false
  end.

(** ** The page around the button branch

    The elements a run with a loaded model writes before the button
    branch (lines 26-55) and the elements every completed run writes
    after it (lines 113-142), to state what a whole run writes. *)

Definition page_head (raw : raw_input) : list element :=
  [ set_page_config; title;
    write (Text "This app predicts population based on country and year data!");
    success (Text "Model loaded successfully!");
    header "Enter Information";
    text_input "Country Code (3 letters)"; number_input "Year";
    text_input "Country ID (2 letters)"; text_input "Country Name";
    header "Your Input";
    write (KeyValue "Country Code" (VStr (country_iso raw)));
    write (KeyValue "Year" (VInt (year raw)));
    write (KeyValue "Country ID" (VStr (country_id raw)));
    write (KeyValue "Country Name" (VStr (country_name raw)));
    button "Predict Population" ].

Definition footer : element :=
  markdown "*Built with Streamlit | World Bank Population Data*".

Definition page_tail : list element :=
  written sidebar ++ [markdown "---"; footer].

Definition is_error (e : element) : bool :=
  match e with
  | error _ => true
  | _ => false
  end.

Definition is_footer (e : element) : bool :=
  match e with
  | markdown s => String.eqb s "*Built with Streamlit | World Bank Population Data*"
  | _ => false
  end.

(** What line 110 prints for names whose truth value is [known]. *)
Definition expects (names : py_seq) (known : bool) : option nat :=
  if known then Some (len names) else None.

(** The exception of [bool(array)] for two or more elements. *)
Definition ambiguous : exn :=
  ValueError
    "The truth value of an array with more than one element is ambiguous. Use a.any() or a.all()".

(** A model without names that answers like [bare_model] on the
    one-hot frame of the scenario and differently everywhere else. *)
Definition other_bare_model : model :=
  {| feature_names_in_ := None;
     predict := fun v =>
       if Nat.eqb (length v) 4 then Ok (Finite 53771300) else Raise (OtherError "shape") |}.

(** ** Lines 58-79 as statements on frame objects

    The same lines as the interpreter runs them.  [pd.DataFrame],
    [pd.get_dummies] and the selection of line 79 each make a new
    frame object; [input_encoded[col] = 0] changes, in place, the
    object that [input_encoded] refers to at that moment.  The heap
    holds every frame object the process has made so far, those of
    earlier runs included; a reference is an address in it. *)

Definition ref : Type := nat.

Definition heap : Type := list frame.

Definition stmt (A : Type) : Type := heap -> heap * result A.

Definition sret {A : Type} (a : A) : stmt A := fun h => (h, Ok a).

Definition sbind {A B : Type} (c : stmt A) (k : A -> stmt B) : stmt B :=
  fun h =>
    match c h with
    | (h', Ok a) => k a h'
    | (h', Raise e) => (h', Raise e)
    end.

Declare Scope stmt_scope.
Delimit Scope stmt_scope with stmt.
Notation "x <- c ;; k" := (sbind c (fun x => k))
  (at level 61, c at next level, right associativity) : stmt_scope.
Notation "c ;; k" := (sbind c (fun _ => k))
  (at level 61, right associativity) : stmt_scope.

(** A new object, at the next free address. *)
Definition new (df : frame) : stmt ref :=
  fun h => (h ++ [df], Ok (length h)).

(** The object behind a reference. *)
Definition read (r : ref) : stmt frame :=
  fun h =>
    (h, match nth_error h r with
        | Some df => Ok df
        | None => Raise (OtherError "no object at this address")
        end).

(** [r[label] = v], in place. *)
Definition store_column (r : ref) (label : string) (v : value) : stmt unit :=
  fun h =>
    match nth_error h r with
    | Some df => (firstn r h ++ setitem df label v :: skipn (S r) h, Ok tt)
    | None => (h, Raise (OtherError "no object at this address"))
    end.

(** A call that makes no object and changes none. *)
Definition call {A : Type} (x : result A) : stmt A := fun h => (h, x).

Fixpoint for_each (cols : list string) (body : string -> stmt unit) : stmt unit :=
  match cols with
  | [] => sret tt
  | col :: rest => (body col ;; for_each rest body)%stmt
  end.

(** Lines 74-75, the body of the loop. *)
Definition fill_statement (encoded : ref) (col : string) : stmt unit :=
  (df <- read encoded ;;
   if negb (contains col (columns df))
   then store_column encoded col (VInt 0)
   else sret tt)%stmt.

(** Lines 58-79; the result is the reference held by [input_encoded]
    at line 81. *)
Definition align_statements (raw : raw_input) (names : py_seq) : stmt ref :=
  (df <- new (input_df raw) ;;
   data <- read df ;;
   dummies <- call (get_dummies data categorical) ;;
   encoded <- new dummies ;;
   for_each (items names) (fill_statement encoded) ;;
   if Nat.ltb 0 (len names)
   then (filled <- read encoded ;;
         selected <- call (getitem filled (items names)) ;;
         new selected)
   else sret encoded)%stmt.



(** * Properties *)

(** ** Frames with distinct labels *)

Section Frames.

Lemma contains_In (label : string) (index : list string) :
  contains label index = true <-> In label index.
Proof.
  unfold contains. rewrite existsb_exists. split.
  - intros [x [Hx Heq]]. apply String.eqb_eq in Heq. now subst.
  - intros H. exists label. split; [assumption | apply String.eqb_refl].
Qed.

Lemma contains_false (label : string) (index : list string) :
  contains label index = false <-> ~ In label index.
Proof.
  rewrite <- contains_In. destruct (contains label index); split; intros H;
    try reflexivity; try discriminate; try (intros H'; discriminate).
  exfalso. now apply H.
Qed.

Lemma lookup_columns (df : frame) (label : string) :
  lookup df label <> None <-> In label (columns df).
Proof.
  induction df as [| [l v] df IH]; simpl.
  - split; [intros H; now elim H | intros []].
  - destruct (String.eqb_spec l label) as [-> | Hne].
    + split; [now left | discriminate].
    + rewrite IH. split; [now right | intros [H | H]; [contradiction | assumption]].
Qed.

Lemma lookup_None (df : frame) (label : string) :
  lookup df label = None <-> ~ In label (columns df).
Proof.
  rewrite <- lookup_columns. destruct (lookup df label); split; intros H;
    try reflexivity; try discriminate; try (intros H'; now apply H').
  exfalso. apply H. discriminate.
Qed.

Lemma loc_absent (df : frame) (label : string) :
  ~ In label (columns df) -> loc df label = [].
Proof.
  induction df as [| [l v] df IH]; simpl; intros H; [reflexivity |].
  destruct (String.eqb_spec l label) as [-> | Hne].
  - exfalso. apply H. now left.
  - apply IH. intros Hin. apply H. now right.
Qed.

(** With distinct labels, a label selects exactly its one column. *)
Lemma loc_lookup (df : frame) (label : string) (v : value) :
  NoDup (columns df) -> lookup df label = Some v -> loc df label = [(label, v)].
Proof.
  induction df as [| [l x] df IH]; simpl; intros Hnd Hl; [discriminate |].
  inversion Hnd as [| ? ? Hnotin Hnd']; subst.
  destruct (String.eqb_spec l label) as [-> | Hne].
  - injection Hl as ->. f_equal. now apply loc_absent.
  - now apply IH.
Qed.

Lemma lookup_app (df df' : frame) (label : string) :
  lookup (df ++ df') label =
  match lookup df label with
  | Some v => Some v
  | None => lookup df' label
  end.
Proof.
  induction df as [| [l x] df IH]; simpl; [reflexivity |].
  destruct (String.eqb l label); [reflexivity | apply IH].
Qed.

Lemma columns_app (df df' : frame) :
  columns (df ++ df') = columns df ++ columns df'.
Proof. unfold columns. apply map_app. Qed.

Lemma fill_one_absent (acc : frame) (col : string) :
  ~ In col (columns acc) -> fill_one acc col = acc ++ [(col, VInt 0)].
Proof.
  intros H. apply contains_false in H. unfold fill_one, setitem. now rewrite H.
Qed.

Lemma fill_one_present (acc : frame) (col : string) :
  In col (columns acc) -> fill_one acc col = acc.
Proof.
  intros H. apply contains_In in H. unfold fill_one. now rewrite H.
Qed.

Lemma fill_one_NoDup (acc : frame) (col : string) :
  NoDup (columns acc) -> NoDup (columns (fill_one acc col)).
Proof.
  intros Hnd. destruct (in_dec string_dec col (columns acc)) as [Hin | Hin].
  - now rewrite fill_one_present.
  - rewrite fill_one_absent, columns_app by assumption. simpl.
    apply NoDup_app; [assumption | repeat constructor; intros [] |].
    intros a Ha [<- | []]. contradiction.
Qed.

Lemma fill_one_lookup (acc : frame) (col label : string) :
  lookup (fill_one acc col) label =
  match lookup acc label with
  | Some v => Some v
  | None => if String.eqb col label then Some (VInt 0) else None
  end.
Proof.
  destruct (in_dec string_dec col (columns acc)) as [Hin | Hin].
  - rewrite fill_one_present by assumption.
    destruct (lookup acc label) eqn:E; [reflexivity |].
    destruct (String.eqb_spec col label) as [-> | Hne]; [| reflexivity].
    apply lookup_None in E. contradiction.
  - rewrite fill_one_absent, lookup_app by assumption. reflexivity.
Qed.

Lemma fill_missing_cons (col : string) (names : list string) (df : frame) :
  fill_missing (col :: names) df = fill_missing names (fill_one df col).
Proof. reflexivity. Qed.

Lemma fill_missing_NoDup (names : list string) (df : frame) :
  NoDup (columns df) -> NoDup (columns (fill_missing names df)).
Proof.
  revert df. induction names as [| col names IH]; intros df Hnd; [assumption |].
  rewrite fill_missing_cons. apply IH. now apply fill_one_NoDup.
Qed.

(** After the loop a column holds what it held before, and a schema
    name that was not a column holds 0. *)
Lemma fill_missing_lookup (names : list string) (df : frame) (label : string) :
  lookup (fill_missing names df) label =
  match lookup df label with
  | Some v => Some v
  | None => if contains label names then Some (VInt 0) else None
  end.
Proof.
  revert df. induction names as [| col names IH]; intros df.
  - simpl. now destruct (lookup df label).
  - rewrite fill_missing_cons, IH, fill_one_lookup. simpl.
    rewrite (String.eqb_sym label col).
    destruct (lookup df label); [reflexivity |].
    destruct (String.eqb col label); [| reflexivity].
    now destruct (contains label names).
Qed.

(** The loop never removes or moves a column: the old frame is a
    prefix of the new one. *)
Lemma fill_missing_prefix (names : list string) (df : frame) :
  exists added, fill_missing names df = df ++ added.
Proof.
  revert df. induction names as [| col names IH]; intros df.
  - exists []. simpl. now rewrite app_nil_r.
  - rewrite fill_missing_cons. destruct (IH (fill_one df col)) as [added Hadd].
    rewrite Hadd. destruct (in_dec string_dec col (columns df)) as [Hin | Hin].
    + rewrite fill_one_present by assumption. now exists added.
    + rewrite fill_one_absent by assumption. rewrite <- app_assoc. eexists. reflexivity.
Qed.

Lemma fill_missing_covers (names : list string) (df : frame) (label : string) :
  In label names -> In label (columns (fill_missing names df)).
Proof.
  intros Hin. apply lookup_columns. rewrite fill_missing_lookup.
  apply contains_In in Hin. rewrite Hin. now destruct (lookup df label).
Qed.

Lemma missing_labels_nil (df : frame) (labels : list string) :
  (forall l, In l labels -> In l (columns df)) -> missing_labels df labels = [].
Proof.
  unfold missing_labels. induction labels as [| l labels IH]; intros H; [reflexivity |].
  simpl. assert (Hl : contains l (columns df) = true)
    by (apply contains_In, H; now left).
  rewrite Hl. simpl. apply IH. intros l' Hl'. apply H. now right.
Qed.

Lemma missing_labels_cons (df : frame) (labels : list string) (l : string) :
  In l labels -> ~ In l (columns df) -> missing_labels df labels <> [].
Proof.
  unfold missing_labels. intros Hin Hnot Hnil.
  assert (Hf : In l (filter (fun l => negb (contains l (columns df))) labels)).
  { apply filter_In. split; [assumption |].
    apply contains_false in Hnot. now rewrite Hnot. }
  rewrite Hnil in Hf. contradiction.
Qed.

Lemma flat_map_loc (df : frame) (labels : list string) :
  NoDup (columns df) ->
  (forall l, In l labels -> In l (columns df)) ->
  flat_map (loc df) labels = map (fun l => (l, cell df l)) labels.
Proof.
  intros Hnd. induction labels as [| l labels IH]; intros H; [reflexivity |].
  simpl. rewrite IH by (intros l' Hl'; apply H; now right).
  assert (Hl : lookup df l <> None) by (apply lookup_columns, H; now left).
  destruct (lookup df l) as [v |] eqn:E; [| now elim Hl].
  assert (Hc : cell df l = v) by (unfold cell; now rewrite E).
  rewrite (@loc_lookup df l v Hnd E), Hc. reflexivity.
Qed.

(** Selection by labels on a frame that has them all, once each. *)
Lemma getitem_present (df : frame) (labels : list string) :
  NoDup (columns df) ->
  (forall l, In l labels -> In l (columns df)) ->
  getitem df labels = Ok (map (fun l => (l, cell df l)) labels).
Proof.
  intros Hnd H. unfold getitem. rewrite missing_labels_nil by assumption.
  now rewrite flat_map_loc.
Qed.

(** Selection does fail on a label that is not a column. *)
Lemma getitem_absent (df : frame) (labels : list string) (l : string) :
  In l labels -> ~ In l (columns df) ->
  getitem df labels = Raise (KeyError (missing_labels df labels)).
Proof.
  intros Hin Hnot. unfold getitem.
  pose proof (@missing_labels_cons df labels l Hin Hnot) as Hne.
  destruct (missing_labels df labels); [now elim Hne | reflexivity].
Qed.

(** Lines 70-79 on a frame with distinct labels and a schema that is
    not empty: one column per schema name, in schema order. *)
Lemma align_schema (encoded : frame) (names : py_seq) :
  NoDup (columns encoded) ->
  items names <> [] ->
  align encoded names =
  Ok (map (fun l => (l, cell encoded l)) (items names)).
Proof.
  intros Hnd Hne. unfold align, reorder.
  destruct (items names) as [| n0 rest] eqn:E; [now elim Hne |].
  change (0 <? length (n0 :: rest))%nat with true. cbv iota.
  rewrite getitem_present.
  - f_equal. apply map_ext_in. intros l Hl. f_equal. unfold cell.
    rewrite fill_missing_lookup. apply contains_In in Hl. rewrite Hl.
    now destruct (lookup encoded l).
  - now apply fill_missing_NoDup.
  - intros l Hl. now apply fill_missing_covers.
Qed.

Lemma align_empty (encoded : frame) (names : py_seq) :
  items names = [] -> align encoded names = Ok encoded.
Proof. intros E. unfold align, reorder. now rewrite E. Qed.

End Frames.

(** ** The one-hot step (lines 58-66) *)

Section Encoding.

Variable raw : raw_input.

(** What [pd.get_dummies] returns on the frame of the form. *)
Lemma input_encoded_one_hot : input_encoded raw = Ok (one_hot raw).
Proof. reflexivity. Qed.

Lemma prefix_append (p s : string) : prefix p (p ++ s)%string = true.
Proof.
  induction p as [| a p IH]; simpl.
  - now destruct s.
  - destruct (Ascii.ascii_dec a a) as [_ | Hne]; [assumption | now elim Hne].
Qed.

Lemma indicator_prefix (f : field) :
  prefix (fieldname f ++ "_")%string (indicator f raw) = true.
Proof.
  destruct f.
  - exact (prefix_append "countryiso3code_" (country_iso raw)).
  - exact (prefix_append "country.id_" (country_id raw)).
  - exact (prefix_append "country.value_" (country_name raw)).
Qed.

(** No field name followed by [_] starts the indicator of another
    field. *)
Lemma indicator_other_prefix (f g : field) :
  f <> g -> prefix (fieldname f ++ "_")%string (indicator g raw) = false.
Proof. destruct f, g; intros H; try reflexivity; now elim H. Qed.

Lemma date_no_prefix (f : field) :
  prefix (fieldname f ++ "_")%string "date" = false.
Proof. destruct f; reflexivity. Qed.

Lemma indicator_not_date (f : field) : indicator f raw <> "date".
Proof.
  intros H. pose proof (indicator_prefix f) as Hp.
  rewrite H, date_no_prefix in Hp. discriminate.
Qed.

Lemma indicator_inj (f g : field) :
  indicator f raw = indicator g raw -> f = g.
Proof.
  intros H. destruct f, g; try reflexivity; exfalso.
  all: match goal with
       | H : indicator ?f raw = indicator ?g raw |- _ =>
           pose proof (indicator_prefix f) as Hp; rewrite H in Hp;
           rewrite indicator_other_prefix in Hp by discriminate; discriminate
       end.
Qed.

Lemma one_hot_NoDup : NoDup (columns (one_hot raw)).
Proof.
  simpl. repeat constructor; simpl.
  - intros [H | [H | [H | []]]]; now apply indicator_not_date in H.
  - intros [H | [H | []]]; apply indicator_inj in H; discriminate.
  - intros [H | []]; apply indicator_inj in H; discriminate.
  - intros [].
Qed.

(** The cells of the one-hot frame are the cells of the
    specification. *)
Lemma cell_one_hot (name : string) :
  cell (one_hot raw) name = expected_cell raw name.
Proof.
  unfold cell, expected_cell, one_hot. cbn [lookup fst snd existsb].
  rewrite (String.eqb_sym name "date").
  rewrite (String.eqb_sym name (indicator Code raw)),
          (String.eqb_sym name (indicator Id raw)),
          (String.eqb_sym name (indicator Name raw)).
  destruct ("date" =? name)%string; [reflexivity |].
  destruct (indicator Code raw =? name)%string; [reflexivity |].
  destruct (indicator Id raw =? name)%string; [reflexivity |].
  now destruct (indicator Name raw =? name)%string.
Qed.

Lemma expected_cell_date : expected_cell raw "date" = VInt (year raw).
Proof. reflexivity. Qed.

Lemma expected_cell_indicator (f : field) :
  expected_cell raw (indicator f raw) = VInt 1.
Proof.
  unfold expected_cell.
  pose proof (indicator_not_date f) as Hd. apply String.eqb_neq in Hd. rewrite Hd.
  assert (E : existsb (fun g => (indicator f raw =? indicator g raw)%string)
                      [Code; Id; Name] = true).
  { apply existsb_exists. exists f. split; [destruct f; simpl; tauto |].
    apply String.eqb_refl. }
  now rewrite E.
Qed.

(** A schema name that starts like an indicator of field [f] but is
    not the indicator of the observed value holds 0. *)
Lemma expected_cell_unseen (f : field) (name : string) :
  prefix (fieldname f ++ "_")%string name = true ->
  name <> indicator f raw ->
  expected_cell raw name = VInt 0.
Proof.
  intros Hp Hne. unfold expected_cell.
  assert (Hd : (name =? "date")%string = false).
  { apply String.eqb_neq. intros ->. rewrite date_no_prefix in Hp. discriminate. }
  rewrite Hd.
  assert (E : existsb (fun g => (name =? indicator g raw)%string)
                      [Code; Id; Name] = false).
  { destruct (existsb _ _) eqn:Ex; [| reflexivity]. exfalso.
    apply existsb_exists in Ex. destruct Ex as [g [_ Hg]].
    apply String.eqb_eq in Hg. subst name.
    destruct (field_eq_dec f g) as [-> | Hfg]; [now apply Hne |].
    rewrite indicator_other_prefix in Hp by assumption. discriminate. }
  now rewrite E.
Qed.

(** Lines 58-79 for a schema that is not empty. *)
Lemma features_schema (names : py_seq) :
  items names <> [] ->
  features raw names = Ok (expected_vector raw (items names)).
Proof.
  intros Hne. unfold features. rewrite input_encoded_one_hot. simpl.
  rewrite align_schema by (apply one_hot_NoDup || assumption).
  apply f_equal. unfold expected_vector. apply map_ext.
  intros l. now rewrite cell_one_hot.
Qed.

(** Lines 58-79 for an empty schema. *)
Lemma features_empty (names : py_seq) :
  items names = [] -> features raw names = Ok (one_hot raw).
Proof.
  intros E. unfold features. rewrite input_encoded_one_hot. simpl.
  now apply align_empty.
Qed.

Lemma columns_expected_vector (schema : list string) :
  columns (expected_vector raw schema) = schema.
Proof.
  unfold columns, expected_vector. rewrite map_map. simpl. apply map_id.
Qed.

End Encoding.

(** ** Alignment (lines 70-79) *)

(** Without the loop of lines 73-75 the selection of line 79 does
    raise: the one-hot frame of the scenario has no USA column. *)
Example getitem_unfilled :
  getitem (one_hot kenya) usa_schema = Raise (KeyError ["countryiso3code_USA"]).
Proof. reflexivity. Qed.

(** C1.  When the indicator of every observed categorical value is a
    name of a non-empty schema, the aligned vector has exactly the
    schema's names in the schema's order, it is the vector the
    specification describes, and every observed indicator holds 1;
    the Kenya input with its four-name schema gives date 2020 and 1
    in the three indicators. *)
Theorem align_seen_categories (raw : raw_input) (names : py_seq)
  (Hne : items names <> [])
  (Hseen : forall f, In (indicator f raw) (items names)) :
  exists v,
    features raw names = Ok v /\
    columns v = items names /\
    v = expected_vector raw (items names) /\
    (forall f, In (indicator f raw, VInt 1) v) /\
    features kenya (NdArray kenya_schema) =
      Ok [ ("date", VInt 2020); ("countryiso3code_KEN", VInt 1);
           ("country.id_KE", VInt 1); ("country.value_Kenya", VInt 1) ].
Proof.
  exists (expected_vector raw (items names)).
  split; [now apply features_schema |].
  split; [apply columns_expected_vector |].
  split; [reflexivity |].
  split; [| reflexivity].
  intros f. unfold expected_vector. apply in_map_iff.
  exists (indicator f raw). split; [| apply Hseen].
  now rewrite expected_cell_indicator.
Qed.

Lemma align_seen_categories_witness :
  items (NdArray kenya_schema) <> [] /\
  (forall f, In (indicator f kenya) (items (NdArray kenya_schema))) /\
  exists v,
    features kenya (NdArray kenya_schema) = Ok v /\
    columns v = kenya_schema /\
    In ("countryiso3code_KEN", VInt 1) v.
Proof.
  assert (Hne : items (NdArray kenya_schema) <> []) by discriminate.
  assert (Hseen : forall f, In (indicator f kenya) (items (NdArray kenya_schema)))
    by (intros f; destruct f; simpl; tauto).
  split; [exact Hne |]. split; [exact Hseen |].
  destruct (align_seen_categories kenya (NdArray kenya_schema) Hne Hseen)
    as [v [Hv [Hcols [_ [Hone _]]]]].
  exists v. split; [exact Hv |]. split; [exact Hcols |]. exact (Hone Code).
Defined.

(** C2.  When the value observed for a categorical field has no
    indicator in a non-empty schema, the aligned vector is as long as
    the schema, holds 0 at every schema position named after that
    field, and keeps no one-hot column that the schema does not name;
    the Kenya input with the schema [date, countryiso3code_USA] gives
    date 2020 and 0 for the USA indicator. *)
Theorem align_unseen_category (raw : raw_input) (names : py_seq) (f : field)
  (Hne : items names <> [])
  (Hunseen : ~ In (indicator f raw) (items names)) :
  exists v,
    features raw names = Ok v /\
    length v = len names /\
    (forall i name,
        nth_error (items names) i = Some name ->
        prefix (fieldname f ++ "_")%string name = true ->
        nth_error v i = Some (name, VInt 0)) /\
    (forall encoded col,
        input_encoded raw = Ok encoded ->
        In col (columns encoded) ->
        ~ In col (items names) ->
        ~ In col (columns v)) /\
    features kenya (NdArray usa_schema) =
      Ok [ ("date", VInt 2020); ("countryiso3code_USA", VInt 0) ].
Proof.
  exists (expected_vector raw (items names)).
  split; [now apply features_schema |].
  split; [unfold expected_vector, len; apply length_map |].
  split; [| split; [| reflexivity]].
  - intros i name Hi Hp. unfold expected_vector.
    rewrite nth_error_map, Hi. simpl. f_equal. f_equal.
    apply expected_cell_unseen with (f := f); [assumption |].
    intros ->. apply Hunseen. eapply nth_error_In. eassumption.
  - intros encoded col _ _ Hnot. now rewrite columns_expected_vector.
Qed.

Lemma align_unseen_category_witness :
  items (NdArray usa_schema) <> [] /\
  ~ In (indicator Code kenya) (items (NdArray usa_schema)) /\
  exists v,
    features kenya (NdArray usa_schema) = Ok v /\
    length v = 2 /\
    nth_error v 1 = Some ("countryiso3code_USA", VInt 0) /\
    ~ In "country.id_KE" (columns v).
Proof.
  assert (Hne : items (NdArray usa_schema) <> []) by discriminate.
  assert (Hunseen : ~ In (indicator Code kenya) (items (NdArray usa_schema))).
  { simpl. intros [H | [H | []]]; discriminate. }
  split; [exact Hne |]. split; [exact Hunseen |].
  destruct (align_unseen_category kenya (NdArray usa_schema) Code Hne Hunseen)
    as [v [Hv [Hlen [Hzero [Hdrop _]]]]].
  exists v. split; [exact Hv |]. split; [exact Hlen |]. split.
  - apply (Hzero 1 "countryiso3code_USA"); reflexivity.
  - apply (Hdrop (one_hot kenya) "country.id_KE").
    + reflexivity.
    + simpl. tauto.
    + simpl. intros [H | [H | []]]; discriminate.
Defined.

(** C3.  When the model has no [feature_names_in_], or has an empty
    one, alignment returns the one-hot frame as it is: the same
    columns, in the same order, with the same cells. *)
Theorem align_empty_schema (raw : raw_input) (m : model)
  (Hempty : feature_names_in_ m = None \/
            exists s, feature_names_in_ m = Some s /\ items s = []) :
  exists encoded,
    input_encoded raw = Ok encoded /\
    align encoded (training_columns m) = Ok encoded /\
    features raw (training_columns m) = Ok encoded.
Proof.
  assert (E : items (training_columns m) = []).
  { unfold training_columns. destruct Hempty as [-> | [s [-> Hs]]]; [reflexivity | exact Hs]. }
  exists (one_hot raw). split; [apply input_encoded_one_hot |].
  split; [now apply align_empty | now apply features_empty].
Qed.

Lemma align_empty_schema_witness :
  (feature_names_in_ bare_model = None \/
   exists s, feature_names_in_ bare_model = Some s /\ items s = []) /\
  exists encoded,
    input_encoded kenya = Ok encoded /\
    features kenya (training_columns bare_model) = Ok encoded.
Proof.
  assert (H : feature_names_in_ bare_model = None \/
              exists s, feature_names_in_ bare_model = Some s /\ items s = [])
    by (left; reflexivity).
  split; [exact H |].
  destruct (align_empty_schema kenya bare_model H) as [encoded [He [_ Hf]]].
  exists encoded. split; [exact He | exact Hf].
Defined.

(** C4, as the specification's contract words it, does not hold: with
    no schema the alignment of the Kenya input raises nothing. *)
Lemma empty_schema_raises_nothing :
  ~ exists e, features kenya (training_columns bare_model) = Raise e.
Proof. intros [e H]. discriminate H. Qed.

(** C4, amended.  When the schema is empty or unavailable, alignment
    does not fail: it succeeds with the four one-hot columns, and that
    unaligned frame is what the script hands to [model.predict]. *)
Theorem empty_schema_falls_back (raw : raw_input) (m : model)
  (Hempty : len (training_columns m) = 0) :
  (forall e, features raw (training_columns m) <> Raise e) /\
  exists v,
    features raw (training_columns m) = Ok v /\
    columns v = ["date"; indicator Code raw; indicator Id raw; indicator Name raw] /\
    on_predict m raw =
      try_except (show_prediction m raw v) (report_failure v (training_columns m)).
Proof.
  assert (E : items (training_columns m) = []).
  { unfold len in Hempty. now apply length_zero_iff_nil. }
  pose proof (features_empty raw (training_columns m) E) as Hf.
  split; [intros e; rewrite Hf; discriminate |].
  exists (one_hot raw). split; [exact Hf |]. split; [reflexivity |].
  unfold on_predict, bind, lift. rewrite input_encoded_one_hot.
  rewrite (align_empty (one_hot raw) (training_columns m) E).
  destruct (try_except _ _) as [out r]. reflexivity.
Qed.

Lemma empty_schema_falls_back_witness :
  len (training_columns bare_model) = 0 /\
  exists v,
    features kenya (training_columns bare_model) = Ok v /\
    columns v = ["date"; "countryiso3code_KEN"; "country.id_KE"; "country.value_Kenya"].
Proof.
  split; [reflexivity |].
  destruct (empty_schema_falls_back kenya bare_model eq_refl) as [_ [v [Hv [Hc _]]]].
  exists v. split; [exact Hv | exact Hc].
Defined.

Lemma read_last (h : heap) (df : frame) :
  read (length h) (h ++ [df]) = (h ++ [df], Ok df).
Proof.
  unfold read. rewrite nth_error_app2 by lia. now rewrite Nat.sub_diag.
Qed.

Lemma store_column_last (h : heap) (df : frame) (label : string) (v : value) :
  store_column (length h) label v (h ++ [df]) = (h ++ [setitem df label v], Ok tt).
Proof.
  unfold store_column. rewrite nth_error_app2 by lia.
  rewrite Nat.sub_diag. cbn [nth_error].
  rewrite firstn_app, firstn_all, Nat.sub_diag. cbn [firstn].
  rewrite app_nil_r.
  rewrite skipn_all2; [reflexivity |]. rewrite length_app. simpl. lia.
Qed.

(** A store through a reference does change an object made
    earlier, so that a run leaves earlier objects alone is a fact
    about the statements of lines 58-79, not about the heap. *)
Example store_column_in_place :
  store_column 0 "countryiso3code_USA" (VInt 0) [[("date", VInt 2020)]; []] =
  ([[("date", VInt 2020); ("countryiso3code_USA", VInt 0)]; []], Ok tt).
Proof. reflexivity. Qed.

(** The loop of lines 73-75 changes the one object it is run on, as
    [fill_missing] says, and nothing else. *)
Lemma for_each_fill (names : list string) (h : heap) (df : frame) :
  for_each names (fill_statement (length h)) (h ++ [df]) =
  (h ++ [fill_missing names df], Ok tt).
Proof.
  revert df. induction names as [| col names IH]; intros df; [reflexivity |].
  rewrite fill_missing_cons. cbn [for_each]. unfold sbind at 1.
  unfold fill_statement at 1. unfold sbind at 1. rewrite read_last.
  unfold fill_one. destruct (negb (contains col (columns df))).
  - rewrite store_column_last. apply IH.
  - unfold sret. apply IH.
Qed.

(** The statements of lines 58-79 compute [features]: run on any
    heap, they leave every object that was there as it was, add the
    frames of this run behind them, and return a reference to the
    frame [features] describes. *)
Lemma align_statements_run (raw : raw_input) (names : py_seq) (h : heap) (v : frame) :
  features raw names = Ok v ->
  exists made r,
    align_statements raw names h = (h ++ made, Ok r) /\
    nth_error (h ++ made) r = Some v.
Proof.
  intros Hv. unfold features in Hv. rewrite input_encoded_one_hot in Hv.
  simpl in Hv. unfold align in Hv.
  unfold align_statements. unfold sbind at 1. unfold new at 1.
  unfold sbind at 1. rewrite read_last.
  unfold sbind at 1. unfold call at 1.
  fold (input_encoded raw). rewrite input_encoded_one_hot.
  unfold sbind at 1. unfold new at 1.
  unfold sbind at 1.
  rewrite (for_each_fill (items names) (h ++ [input_df raw]) (one_hot raw)).
  unfold reorder in Hv. unfold len.
  destruct (0 <? length (items names))%nat.
  - unfold sbind at 1. rewrite read_last.
    unfold sbind at 1. unfold call at 1. rewrite Hv. unfold new.
    exists [input_df raw; fill_missing (items names) (one_hot raw); v].
    eexists. split.
    + f_equal. rewrite <- !app_assoc. reflexivity.
    + rewrite !length_app. simpl.
      rewrite nth_error_app2 by lia.
      match goal with
      | |- nth_error _ ?n = _ => replace n with 2 by lia
      end. reflexivity.
  - injection Hv as <-. unfold sret.
    exists [input_df raw; fill_missing (items names) (one_hot raw)].
    eexists. split.
    + f_equal. rewrite <- !app_assoc. reflexivity.
    + rewrite !length_app. simpl.
      rewrite nth_error_app2 by lia.
      match goal with
      | |- nth_error _ ?n = _ => replace n with 1 by lia
      end. reflexivity.
Qed.

(** C5.  Two runs of lines 58-79 with the same four form fields and
    the same schema names return frames with the same columns, order
    and cells, whatever frame objects the process holds when each run
    starts (so also when the second run starts from what the first
    left behind): the statements change no object that was there
    before, and what they return is the frame [features] gives. *)
Theorem alignment_repeatable (raw1 raw2 : raw_input) (names1 names2 : py_seq)
        (h1 h2 : heap)
  (Hiso : country_iso raw1 = country_iso raw2)
  (Hyear : year raw1 = year raw2)
  (Hid : country_id raw1 = country_id raw2)
  (Hname : country_name raw1 = country_name raw2)
  (Hschema : items names1 = items names2) :
  exists r1 r2 v,
    snd (align_statements raw1 names1 h1) = Ok r1 /\
    snd (align_statements raw2 names2 h2) = Ok r2 /\
    nth_error (fst (align_statements raw1 names1 h1)) r1 = Some v /\
    nth_error (fst (align_statements raw2 names2 h2)) r2 = Some v /\
    features raw1 names1 = Ok v /\
    firstn (length h1) (fst (align_statements raw1 names1 h1)) = h1 /\
    firstn (length h2) (fst (align_statements raw2 names2 h2)) = h2.
Proof.
  assert (Hdef : exists v, features raw1 names1 = Ok v).
  { destruct (items names1) as [| n0 rest] eqn:E.
    - eexists. now apply features_empty.
    - eexists. apply features_schema. rewrite E. discriminate. }
  destruct Hdef as [v Hv1].
  assert (Hv2 : features raw2 names2 = Ok v).
  { rewrite <- Hv1. destruct raw1, raw2. simpl in Hiso, Hyear, Hid, Hname. subst.
    unfold features, align. now rewrite Hschema. }
  destruct (align_statements_run raw1 names1 h1 Hv1) as [made1 [r1 [Hrun1 Hget1]]].
  destruct (align_statements_run raw2 names2 h2 Hv2) as [made2 [r2 [Hrun2 Hget2]]].
  exists r1, r2, v. rewrite Hrun1, Hrun2. cbn [fst snd].
  repeat split; try assumption.
  - rewrite firstn_app, firstn_all, Nat.sub_diag. simpl. apply app_nil_r.
  - rewrite firstn_app, firstn_all, Nat.sub_diag. simpl. apply app_nil_r.
Qed.

Lemma alignment_repeatable_witness :
  items (NdArray usa_schema) = items (PyList usa_schema) /\
  exists r1 r2 v,
    snd (align_statements kenya (NdArray usa_schema) []) = Ok r1 /\
    snd (align_statements kenya (PyList usa_schema)
           (fst (align_statements kenya (NdArray usa_schema) []))) = Ok r2 /\
    nth_error (fst (align_statements kenya (NdArray usa_schema) [])) r1 = Some v /\
    nth_error (fst (align_statements kenya (PyList usa_schema)
                      (fst (align_statements kenya (NdArray usa_schema) [])))) r2 =
      Some v.
Proof.
  split; [reflexivity |].
  destruct (@alignment_repeatable kenya kenya (NdArray usa_schema) (PyList usa_schema)
              [] (fst (align_statements kenya (NdArray usa_schema) []))
              eq_refl eq_refl eq_refl eq_refl eq_refl)
    as [r1 [r2 [v [H1 [H2 [H3 [H4 _]]]]]]].
  exists r1, r2, v. repeat split; assumption.
Defined.







(** C7.  The one-hot step returns four columns: [date], then for each
    categorical field, in the order of the [columns] argument, the one
    indicator [<fieldname>_<value>] of the observed value, holding 1;
    the four names are distinct and the indicator is the only column
    named after its field. *)
Theorem one_hot_four_columns (raw : raw_input) :
  input_encoded raw =
    Ok [ ("date", VInt (year raw));
         (("countryiso3code" ++ "_" ++ country_iso raw)%string, VInt 1);
         (("country.id" ++ "_" ++ country_id raw)%string, VInt 1);
         (("country.value" ++ "_" ++ country_name raw)%string, VInt 1) ] /\
  (forall encoded, input_encoded raw = Ok encoded ->
     length encoded = 4 /\
     NoDup (columns encoded) /\
     forall f,
       filter (fun c => prefix (fieldname f ++ "_")%string (fst c)) encoded =
       [(indicator f raw, VInt 1)]).
Proof.
  split; [reflexivity |].
  intros encoded H. rewrite input_encoded_one_hot in H. injection H as <-.
  split; [reflexivity |]. split; [apply one_hot_NoDup |].
  intros f. unfold one_hot. cbn [filter fst].
  rewrite date_no_prefix.
  destruct f;
    repeat rewrite indicator_prefix;
    repeat (rewrite indicator_other_prefix by discriminate);
    reflexivity.
Qed.

Lemma one_hot_four_columns_witness :
  input_encoded kenya =
    Ok [ ("date", VInt 2020); ("countryiso3code_KEN", VInt 1);
         ("country.id_KE", VInt 1); ("country.value_Kenya", VInt 1) ] /\
  length (one_hot kenya) = 4.
Proof.
  split; [reflexivity |].
  destruct (one_hot_four_columns kenya) as [H1 H2].
  destruct (H2 (one_hot kenya) eq_refl) as [Hlen _]. exact Hlen.
Defined.

(** C10.  For any form input and any non-empty schema the alignment
    returns a vector: after the loop of lines 73-75 every schema name
    is a column, the labels are still distinct, and so the selection
    of line 79 finds each of them. *)
Theorem align_total (raw : raw_input) (names : py_seq)
  (Hne : items names <> []) :
  (exists v, features raw names = Ok v) /\
  (forall encoded,
      input_encoded raw = Ok encoded ->
      (forall l, In l (items names) ->
                 In l (columns (fill_missing (items names) encoded))) /\
      missing_labels (fill_missing (items names) encoded) (items names) = [] /\
      exists v, getitem (fill_missing (items names) encoded) (items names) = Ok v).
Proof.
  split; [eexists; now apply features_schema |].
  intros encoded H. rewrite input_encoded_one_hot in H. injection H as <-.
  assert (Hcov : forall l, In l (items names) ->
                  In l (columns (fill_missing (items names) (one_hot raw))))
    by (intros l Hl; now apply fill_missing_covers).
  split; [exact Hcov |]. split; [now apply missing_labels_nil |].
  eexists. apply getitem_present; [| exact Hcov].
  apply fill_missing_NoDup, one_hot_NoDup.
Qed.

Lemma align_total_witness :
  items (NdArray usa_schema) <> [] /\
  exists v, features kenya (NdArray usa_schema) = Ok v.
Proof.
  assert (Hne : items (NdArray usa_schema) <> []) by discriminate.
  split; [exact Hne |].
  exact (proj1 (align_total kenya (NdArray usa_schema) Hne)).
Defined.

(** ** The script run *)

Section Run.

Lemma features_defined (raw : raw_input) (names : py_seq) :
  exists v, features raw names = Ok v.
Proof.
  destruct (items names) as [| n0 rest] eqn:E.
  - eexists. now apply features_empty.
  - eexists. apply features_schema. rewrite E. discriminate.
Qed.

Lemma on_predict_features (m : model) (raw : raw_input) (v : frame) :
  features raw (training_columns m) = Ok v ->
  on_predict m raw =
  try_except (show_prediction m raw v) (report_failure v (training_columns m)).
Proof.
  unfold features, on_predict, bind, lift. rewrite input_encoded_one_hot. simpl.
  intros ->. destruct (try_except _ _) as [out r]. reflexivity.
Qed.

(** A rejected vector sends the run to the handler of line 104. *)
Lemma on_predict_rejected (m : model) (raw : raw_input) (v : frame) (e : exn) :
  features raw (training_columns m) = Ok v ->
  predict m v = Raise e ->
  on_predict m raw = report_failure v (training_columns m) e.
Proof.
  intros Hv Hp. rewrite (on_predict_features m raw Hv).
  unfold show_prediction, bind, lift, try_except. rewrite Hp.
  destruct (report_failure _ _ _) as [out r]. reflexivity.
Qed.

(** The handler completes when the names are a list (also the [[]]
    of line 70), and then reports the shape and the count. *)
Lemma report_failure_list (v : frame) (l : list string) (e : exn) :
  report_failure v (PyList l) e =
  ([ error (PredictionFailed e);
     write (Text "**Debug Info:**");
     write (InputShape (1, length v));
     write (ModelExpects (match l with [] => None | _ => Some (length l) end)) ],
   Ok tt).
Proof. destruct l; reflexivity. Qed.

(** The handler does not complete when the names are an array of two
    or more: line 110 asks for its truth value. *)
Lemma report_failure_array (v : frame) (a b : string) (rest : list string) (e : exn) :
  exists msg,
    report_failure v (NdArray (a :: b :: rest)) e =
    ([ error (PredictionFailed e);
       write (Text "**Debug Info:**");
       write (InputShape (1, length v)) ],
     Raise (ValueError msg)).
Proof. eexists. reflexivity. Qed.


(** How a clicked run with a loaded model ends is how the button
    branch ends, unless that branch completes. *)
Lemma app_clicked (s : session) (m : model) (out : list element) (r : result unit) :
  joblib_load s = Ok m ->
  clicked s = true ->
  on_predict m (form s) = (out, r) ->
  (forall e, r = Raise e -> outcome (app s) = Raise e) /\
  (r = Ok tt -> outcome (app s) = Ok tt) /\
  (forall x, In x out -> In x (written (app s))) /\
  (existsb is_feature_count out = false -> r <> Ok tt ->
   existsb is_feature_count (written (app s)) = false).
Proof.
  destruct s as [loaded raw pressed]. simpl. intros -> -> Hp.
  unfold app, load_model, page. cbn -[on_predict sidebar].
  rewrite Hp. destruct r as [[] | e'].
  - split; [discriminate |]. split; [reflexivity |].
    split; [| intros _ H; now elim H].
    intros x Hx. cbn. do 15 right. apply in_or_app. now left.
  - split; [intros e [= ->]; reflexivity |]. split; [discriminate |].
    split.
    + intros x Hx. cbn. do 15 right. exact Hx.
    + intros Hout _. cbn. exact Hout.
Qed.

(** With a fitted estimator of two or more features, every rejected
    prediction ends the run with the [ValueError] of line 110 and
    without the feature count. *)
Lemma rejected_array_run (s : session) (m : model) (v : frame)
      (a b : string) (rest : list string) (e : exn) :
  joblib_load s = Ok m ->
  clicked s = true ->
  feature_names_in_ m = Some (NdArray (a :: b :: rest)) ->
  features (form s) (training_columns m) = Ok v ->
  predict m v = Raise e ->
  (exists msg, outcome (app s) = Raise (ValueError msg)) /\
  existsb is_feature_count (written (app s)) = false.
Proof.
  intros Hload Hclick Hnames Hv Hp.
  pose proof (on_predict_rejected m (form s) Hv Hp) as Hon.
  assert (Htc : training_columns m = NdArray (a :: b :: rest))
    by (unfold training_columns; now rewrite Hnames).
  rewrite Htc in Hon.
  destruct (report_failure_array v a b rest e) as [msg Hrep].
  rewrite Hrep in Hon.
  destruct (app_clicked s Hload Hclick Hon) as [Hraise [_ [_ Hcount]]].
  split; [exists msg; now apply Hraise |].
  apply Hcount; [reflexivity | discriminate].
Qed.

(** With the names in a list, or with no names at all, every
    rejected prediction is reported with the shape and the count, and
    the run completes. *)
Lemma rejected_list_run (s : session) (m : model) (v : frame) (e : exn) :
  joblib_load s = Ok m ->
  clicked s = true ->
  (feature_names_in_ m = None \/ exists l, feature_names_in_ m = Some (PyList l)) ->
  features (form s) (training_columns m) = Ok v ->
  predict m v = Raise e ->
  outcome (app s) = Ok tt /\
  In (error (PredictionFailed e)) (written (app s)) /\
  In (write (InputShape (shape v))) (written (app s)) /\
  exists n, In (write (ModelExpects n)) (written (app s)).
Proof.
  intros Hload Hclick Hnames Hv Hp.
  pose proof (on_predict_rejected m (form s) Hv Hp) as Hon.
  assert (Htc : exists l, training_columns m = PyList l).
  { unfold training_columns. destruct Hnames as [-> | [l ->]]; eexists; reflexivity. }
  destruct Htc as [l Htc]. rewrite Htc, report_failure_list in Hon.
  destruct (app_clicked s Hload Hclick Hon) as [_ [Hok [Hin _]]].
  split; [now apply Hok |].
  split; [apply Hin; simpl; tauto |].
  split; [apply Hin; simpl; tauto |].
  eexists. apply Hin. simpl. do 3 right. left. reflexivity.
Qed.

End Run.

(** C8.  The handler of a failed prediction does not get to the
    expected feature count when the model is a fitted estimator with
    two or more feature names: the run on the Kenya input ends with
    the [ValueError] of line 110, after the error message and the
    shape, and writes neither the count nor the rest of the page. *)
Theorem failure_report_raises :
  app (click (Ok rejecting_model) kenya) =
    ([ set_page_config; title;
       write (Text "This app predicts population based on country and year data!");
       success (Text "Model loaded successfully!");
       header "Enter Information";
       text_input "Country Code (3 letters)"; number_input "Year";
       text_input "Country ID (2 letters)"; text_input "Country Name";
       header "Your Input";
       write (KeyValue "Country Code" (VStr "KEN"));
       write (KeyValue "Year" (VInt 2020));
       write (KeyValue "Country ID" (VStr "KE"));
       write (KeyValue "Country Name" (VStr "Kenya"));
       button "Predict Population";
       error (PredictionFailed (ValueError "could not convert string to float"));
       write (Text "**Debug Info:**");
       write (InputShape (1, 2)) ],
     Raise (ValueError
       "The truth value of an array with more than one element is ambiguous. Use a.any() or a.all()")) /\
  existsb is_feature_count (written (app (click (Ok rejecting_model) kenya))) = false.
Proof. split; reflexivity. Qed.

(** With the same names in a list the same run completes and reports
    the count. *)
Example failure_report_list :
  outcome (app (click (Ok rejecting_list_model) kenya)) = Ok tt /\
  In (write (ModelExpects (Some 2)))
     (written (app (click (Ok rejecting_list_model) kenya))).
Proof. split; [reflexivity | vm_compute; tauto]. Qed.

(** C9, as worded, does not hold: when the model file is not found
    the run writes no widget of the form. *)
Lemma missing_model_hides_form :
  renders_form (written (app (click (Raise FileNotFoundError) kenya))) = false.
Proof. reflexivity. Qed.

(** C9, amended.  When the model file is not found, the run reports
    the error and completes; it renders neither the form nor a
    prediction, whatever the widget state, and still writes the
    sidebar and the footer. *)
Theorem missing_model_page (s : session)
  (Hmissing : joblib_load s = Raise FileNotFoundError) :
  outcome (app s) = Ok tt /\
  In (error (Text "Model file not found! Please make sure 'machine_model.pkl' is in the same folder."))
     (written (app s)) /\
  renders_form (written (app s)) = false /\
  existsb is_metric (written (app s)) = false /\
  In (sidebar_header "How to Use") (written (app s)) /\
  In (markdown "*Built with Streamlit | World Bank Population Data*") (written (app s)).
Proof.
  unfold app, load_model. rewrite Hmissing.
  repeat split; try reflexivity; vm_compute; tauto.
Qed.

Lemma missing_model_page_witness :
  joblib_load (click (Raise FileNotFoundError) kenya) = Raise FileNotFoundError /\
  outcome (app (click (Raise FileNotFoundError) kenya)) = Ok tt /\
  renders_form (written (app (click (Raise FileNotFoundError) kenya))) = false.
Proof.
  split; [reflexivity |].
  destruct (missing_model_page (click (Raise FileNotFoundError) kenya) eq_refl)
    as [Hout [_ [Hform _]]].
  split; [exact Hout | exact Hform].
Defined.

(** * Further properties of the script *)

(** ** The zero-fill loop and the selection (lines 73-79) on any frame *)

Lemma fill_missing_fixed (names : list string) (df : frame) :
  (forall l, In l names -> In l (columns df)) -> fill_missing names df = df.
Proof.
  induction names as [| col names IH]; intros H; [reflexivity |].
  rewrite fill_missing_cons, fill_one_present by (apply H; now left).
  apply IH. intros l Hl. apply H. now right.
Qed.

(** X1.  Running the loop of lines 73-75 a second time changes nothing. *)
Theorem fill_missing_idempotent (names : list string) (df : frame) :
  fill_missing names (fill_missing names (df)) = fill_missing names df.
Proof.
  apply fill_missing_fixed. intros l Hl. now apply fill_missing_covers.
Qed.

(** X2.  The loop of lines 73-75 only appends: the frame it starts from
    stays in place with its cells, every appended column holds 0, and
    the appended labels are, once each, the schema names the frame did
    not have. *)
Theorem fill_missing_appends (names : list string) (df : frame) :
  exists added,
    fill_missing names df = df ++ added /\
    Forall (fun c => snd c = VInt 0) added /\
    NoDup (columns added) /\
    (forall l, In l (columns added) <-> In l names /\ ~ In l (columns df)).
Proof.
  revert df. induction names as [| col names IH]; intros df.
  - exists []. simpl. rewrite app_nil_r.
    split; [reflexivity |]. split; [constructor |]. split; [constructor |].
    intros l. split; [intros [] | intros [[] _]].
  - rewrite fill_missing_cons.
    destruct (in_dec string_dec col (columns df)) as [Hin | Hin].
    + rewrite fill_one_present by assumption.
      destruct (IH df) as [added [Heq [Hz [Hnd Hiff]]]].
      exists added. split; [assumption |]. split; [assumption |].
      split; [assumption |]. intros l. split.
      * intros Hl. apply Hiff in Hl. destruct Hl as [Hl Hnot].
        split; [now right | assumption].
      * intros [[<- | Hl] Hnot]; [contradiction |]. apply Hiff. now split.
    + rewrite fill_one_absent by assumption.
      destruct (IH (df ++ [(col, VInt 0)])) as [added [Heq [Hz [Hnd Hiff]]]].
      exists ((col, VInt 0) :: added). rewrite Heq, <- app_assoc.
      split; [reflexivity |]. split; [constructor; [reflexivity | assumption] |].
      assert (Hcol : ~ In col (columns added)).
      { intros Hc. apply Hiff in Hc. destruct Hc as [_ Hc]. apply Hc.
        rewrite columns_app. apply in_or_app. right. now left. }
      split; [simpl; constructor; assumption |].
      intros l. simpl. split.
      * intros [<- | Hl]; [split; [now left | assumption] |].
        apply Hiff in Hl. destruct Hl as [Hl Hnot]. split; [now right |].
        intros Hd. apply Hnot. rewrite columns_app. apply in_or_app. now left.
      * intros [[<- | Hl] Hnot]; [now left |].
        destruct (string_dec col l) as [-> | Hne]; [now left |].
        right. apply Hiff. split; [assumption |].
        rewrite columns_app. intros Hd. apply in_app_or in Hd.
        destruct Hd as [Hd | [Hd | []]]; [contradiction | contradiction].
Qed.

Lemma loc_label (df : frame) (label : string) (c : string * value) :
  In c (loc df label) -> fst c = label /\ In c df.
Proof.
  unfold loc. intros H. apply filter_In in H. destruct H as [Hin Heq].
  apply String.eqb_eq in Heq. now split.
Qed.

Lemma loc_present (df : frame) (label : string) :
  In label (columns df) -> exists v, In (label, v) (loc df label).
Proof.
  unfold columns. intros H. apply in_map_iff in H. destruct H as [[l v] [Hl Hin]].
  simpl in Hl. subst l. exists v. apply filter_In. split; [assumption |].
  apply String.eqb_refl.
Qed.

(** X3.  Lines 70-79 on any frame, also one with repeated labels: with a
    non-empty schema the selection of line 79 never raises, and the
    labels of the result are exactly the schema's names. *)
Theorem align_any_frame (df : frame) (names : py_seq)
  (Hne : items names <> []) :
  exists v,
    align df names = Ok v /\
    (forall l, In l (columns v) <-> In l (items names)) /\
    (NoDup (columns df) -> columns v = items names).
Proof.
  unfold align, reorder.
  destruct (items names) as [| n0 rest] eqn:E; [now elim Hne |].
  change (0 <? length (n0 :: rest))%nat with true. cbv iota.
  set (labels := n0 :: rest). set (filled := fill_missing labels df).
  assert (Hcov : forall l, In l labels -> In l (columns filled))
    by (intros l Hl; now apply fill_missing_covers).
  unfold getitem. rewrite missing_labels_nil by assumption.
  eexists. split; [reflexivity |]. split.
  - intros l. unfold columns at 1. rewrite in_map_iff. split.
    + intros [c [Hc Hin]]. apply in_flat_map in Hin.
      destruct Hin as [n [Hn Hloc]]. apply loc_label in Hloc.
      destruct Hloc as [Hfst _]. congruence.
    + intros Hl. destruct (loc_present filled l (Hcov l Hl)) as [v Hv].
      exists (l, v). split; [reflexivity |]. apply in_flat_map. now exists l.
  - intros Hnd. rewrite flat_map_loc; [| now apply fill_missing_NoDup | assumption].
    unfold columns. rewrite map_map. cbn [fst]. apply map_id.
Qed.

Lemma align_any_frame_witness :
  items (NdArray usa_schema) <> [] /\
  exists v,
    align [("date", VInt 1); ("date", VInt 2)] (NdArray usa_schema) = Ok v /\
    (In "countryiso3code_USA" (columns v)).
Proof.
  assert (Hne : items (NdArray usa_schema) <> []) by discriminate.
  split; [exact Hne |].
  destruct (align_any_frame [("date", VInt 1); ("date", VInt 2)] (NdArray usa_schema) Hne)
    as [v [Hv [Hiff _]]].
  exists v. split; [exact Hv |]. apply Hiff. simpl. tauto.
Defined.

Lemma lookup_map_self (g : string -> value) (labels : list string) (l : string) :
  In l labels -> lookup (map (fun n => (n, g n)) labels) l = Some (g l).
Proof.
  induction labels as [| n labels IH]; intros H; [destruct H |].
  simpl. destruct (String.eqb_spec n l) as [-> | Hne]; [reflexivity |].
  apply IH. destruct H as [H | H]; [contradiction | assumption].
Qed.

(** X4.  Aligning the aligned vector again with the same schema returns it
    unchanged, provided the schema does not repeat a name. *)
Theorem align_idempotent (raw : raw_input) (names : py_seq) (v : frame)
  (Hv : features raw names = Ok v)
  (Hnd : NoDup (items names)) :
  align v names = Ok v.
Proof.
  destruct (items names) as [| n0 rest] eqn:E.
  - now apply align_empty.
  - assert (Hne : items names <> []) by (rewrite E; discriminate).
    rewrite features_schema in Hv by assumption. injection Hv as <-.
    rewrite align_schema;
      [| rewrite columns_expected_vector, E; exact Hnd | assumption].
    rewrite E. apply f_equal. unfold expected_vector. apply map_ext_in.
    intros l Hl. unfold cell.
    now rewrite (lookup_map_self (expected_cell raw) (n0 :: rest) l Hl).
Qed.

Lemma align_idempotent_witness :
  NoDup (items (NdArray usa_schema)) /\
  align [("date", VInt 2020); ("countryiso3code_USA", VInt 0)] (NdArray usa_schema) =
    Ok [("date", VInt 2020); ("countryiso3code_USA", VInt 0)].
Proof.
  assert (Hnd : NoDup (items (NdArray usa_schema))).
  { simpl. repeat constructor; simpl; [intros [H | []]; discriminate | intros []]. }
  split; [exact Hnd |].
  apply (@align_idempotent kenya (NdArray usa_schema)); [reflexivity | exact Hnd].
Defined.

(** With a repeated schema name a second alignment does change the
    vector: each repetition selects every column of that name. *)
Example align_repeated_name :
  features kenya (PyList ["date"; "date"]) =
    Ok [("date", VInt 2020); ("date", VInt 2020)] /\
  align [("date", VInt 2020); ("date", VInt 2020)] (PyList ["date"; "date"]) =
    Ok [("date", VInt 2020); ("date", VInt 2020);
        ("date", VInt 2020); ("date", VInt 2020)].
Proof. split; reflexivity. Qed.

(** ** What the aligned vector tells the model (lines 58-79) *)

Lemma append_inj (p a b : string) : (p ++ a)%string = (p ++ b)%string -> a = b.
Proof.
  induction p as [| c p IH]; simpl; intros H; [assumption |].
  injection H as H. now apply IH.
Qed.

Lemma indicator_level (f : field) (raw : raw_input) (x : string) :
  (fieldname f ++ "_" ++ x)%string = indicator f raw -> x = observed f raw.
Proof.
  unfold indicator. intros H. apply append_inj in H. now apply append_inj in H.
Qed.

Lemma level_prefix (f : field) (x : string) :
  prefix (fieldname f ++ "_")%string (fieldname f ++ "_" ++ x)%string = true.
Proof.
  destruct f.
  - exact (prefix_append "countryiso3code_" x).
  - exact (prefix_append "country.id_" x).
  - exact (prefix_append "country.value_" x).
Qed.

(** X5.  A schema position named [<fieldname>_<x>] holds 1 when [x] is,
    character for character, the value entered for that field, and 0
    otherwise; the values entered for the other two fields have no
    part in it. *)
Theorem indicator_position (raw : raw_input) (names : py_seq)
        (f : field) (x : string) (i : nat)
  (Hi : nth_error (items names) i = Some (fieldname f ++ "_" ++ x)%string) :
  exists v,
    features raw names = Ok v /\
    nth_error v i =
      Some ((fieldname f ++ "_" ++ x)%string,
            VInt (if String.eqb (observed f raw) x then 1 else 0)).
Proof.
  assert (Hne : items names <> []).
  { intros E. rewrite E in Hi. destruct i; discriminate. }
  exists (expected_vector raw (items names)).
  split; [now apply features_schema |].
  unfold expected_vector. rewrite nth_error_map, Hi. simpl. f_equal. f_equal.
  destruct (String.eqb_spec (observed f raw) x) as [<- | Hne'].
  - apply (expected_cell_indicator raw f).
  - apply expected_cell_unseen with (f := f); [apply level_prefix |].
    intros H. apply indicator_level in H. congruence.
Qed.

Lemma indicator_position_witness :
  nth_error (items (NdArray usa_schema)) 1 =
    Some (fieldname Code ++ "_" ++ "USA")%string /\
  exists v,
    features kenya (NdArray usa_schema) = Ok v /\
    nth_error v 1 = Some ("countryiso3code_USA", VInt 0).
Proof.
  split; [reflexivity |].
  exact (@indicator_position kenya (NdArray usa_schema) Code "USA" 1 eq_refl).
Defined.

(** X6.  The vector handed to the model holds numbers only: each cell is
    the entered year, 0 or 1; the three texts of the form never reach
    the model as cells. *)
Theorem cells_numeric (raw : raw_input) (names : py_seq) :
  exists v,
    features raw names = Ok v /\
    Forall (fun c => snd c = VInt (year raw) \/ snd c = VInt 0 \/ snd c = VInt 1) v.
Proof.
  destruct (items names) as [| n0 rest] eqn:E.
  - exists (one_hot raw). split; [now apply features_empty |].
    unfold one_hot. repeat constructor; simpl; tauto.
  - exists (expected_vector raw (items names)).
    split; [apply features_schema; rewrite E; discriminate |].
    unfold expected_vector. apply Forall_forall. intros c Hc.
    apply in_map_iff in Hc. destruct Hc as [l [<- _]]. simpl.
    unfold expected_cell.
    destruct (l =? "date")%string; [now left |].
    destruct (existsb _ _); tauto.
Qed.

(** X7.  A non-empty schema that names none of the three observed
    indicators gives a vector with the year under [date] and 0
    everywhere else, so two such inputs with the same year are handed
    to the model as the same vector. *)
Theorem unseen_inputs_coincide (raw1 raw2 : raw_input) (names : py_seq)
  (Hne : items names <> [])
  (Hyear : year raw1 = year raw2)
  (Hunseen1 : forall f, ~ In (indicator f raw1) (items names))
  (Hunseen2 : forall f, ~ In (indicator f raw2) (items names)) :
  features raw1 names =
    Ok (map (fun l => (l, if String.eqb l "date" then VInt (year raw1) else VInt 0))
            (items names)) /\
  features raw1 names = features raw2 names.
Proof.
  assert (H : forall raw, (forall f, ~ In (indicator f raw) (items names)) ->
              features raw names =
              Ok (map (fun l => (l, if String.eqb l "date" then VInt (year raw) else VInt 0))
                      (items names))).
  { intros raw Hun. rewrite features_schema by assumption. apply f_equal.
    unfold expected_vector. apply map_ext_in. intros l Hl. f_equal.
    unfold expected_cell. destruct (l =? "date")%string; [reflexivity |].
    destruct (existsb _ _) eqn:Ex; [| reflexivity]. exfalso.
    apply existsb_exists in Ex. destruct Ex as [g [_ Hg]].
    apply String.eqb_eq in Hg. subst l. now apply (Hun g). }
  split; [now apply H |].
  rewrite (H raw1 Hunseen1), (H raw2 Hunseen2), Hyear. reflexivity.
Qed.

Lemma unseen_inputs_coincide_witness :
  items (NdArray usa_schema) <> [] /\
  features kenya (NdArray usa_schema) = features france (NdArray usa_schema).
Proof.
  assert (Hne : items (NdArray usa_schema) <> []) by discriminate.
  split; [exact Hne |].
  apply (@unseen_inputs_coincide kenya france (NdArray usa_schema) Hne eq_refl).
  - intros f; destruct f; simpl; intros [H | [H | []]]; discriminate.
  - intros f; destruct f; simpl; intros [H | [H | []]]; discriminate.
Defined.

(** X8.  The one-hot frame determines the form input: two inputs that
    differ in any of the four fields get different encoded frames. *)
Theorem input_encoded_injective (raw1 raw2 : raw_input)
  (Hdiff : raw1 <> raw2) :
  input_encoded raw1 <> input_encoded raw2.
Proof.
  intros H. apply Hdiff.
  rewrite !input_encoded_one_hot in H. unfold one_hot in H.
  injection H as Hy Hc Hi Hn.
  destruct raw1, raw2. simpl in *. congruence.
Qed.

Lemma input_encoded_injective_witness :
  kenya <> france /\ input_encoded kenya <> input_encoded france.
Proof.
  assert (Hdiff : kenya <> france) by discriminate.
  split; [exact Hdiff |].
  exact (@input_encoded_injective kenya france Hdiff).
Defined.

(** ** Whole runs (lines 14-142) *)

Lemma report_failure_written (v : frame) (names : py_seq) (e : exn) :
  report_failure v names e =
  ([ error (PredictionFailed e); write (Text "**Debug Info:**");
     write (InputShape (shape v)) ] ++
   match truth names with
   | Ok known => [write (ModelExpects (expects names known))]
   | Raise _ => []
   end,
   match truth names with
   | Ok _ => Ok tt
   | Raise e' => Raise e'
   end).
Proof.
  unfold report_failure, bind, emit, lift, expects.
  destruct (truth names); reflexivity.
Qed.

Lemma show_prediction_written (m : model) (raw : raw_input) (v : frame) :
  show_prediction m raw v =
  match predict m v with
  | Raise e => ([], Raise e)
  | Ok NaN =>
      ([success (Text "Prediction Complete!"); markdown "---"],
       Raise (ValueError "cannot convert float NaN to integer"))
  | Ok (Finite z) =>
      ([ success (Text "Prediction Complete!"); markdown "---";
         metric "Predicted Population" z; markdown "---";
         info (Approximately (country_name raw) z (year raw)) ],
       Ok tt)
  end.
Proof.
  unfold show_prediction, bind, emit, lift.
  destruct (predict m v) as [[z |] | e]; reflexivity.
Qed.

(** A run with a loaded model: the head of the page, then what the
    button branch wrote, then the sidebar and the footer unless the
    branch ended with an exception. *)
Lemma app_loaded (s : session) (m : model) :
  joblib_load s = Ok m ->
  app s =
  if clicked s
  then (page_head (form s) ++ written (on_predict m (form s)) ++
        match outcome (on_predict m (form s)) with
        | Ok _ => page_tail
        | Raise _ => []
        end,
        outcome (on_predict m (form s)))
  else (page_head (form s) ++ page_tail, Ok tt).
Proof.
  destruct s as [loaded raw pressed]. simpl. intros ->.
  destruct pressed; [| reflexivity].
  unfold app, load_model, page. cbn -[on_predict sidebar page_tail].
  generalize (on_predict m raw). intros [out [[] | e]]; cbn.
  - do 15 f_equal.
  - do 15 f_equal. now rewrite app_nil_r.
Qed.

Lemma page_tail_footer : existsb is_footer page_tail = true.
Proof. reflexivity. Qed.


(** X10.  An exception of [joblib.load] other than [FileNotFoundError] is
    not handled: the run ends with it after the title and the
    introduction, with no error message, form, sidebar or footer. *)
Theorem load_error_aborts (s : session) (e : exn)
  (Hload : joblib_load s = Raise e)
  (Hother : e <> FileNotFoundError) :
  app s =
  ([ set_page_config; title;
     write (Text "This app predicts population based on country and year data!") ],
   Raise e).
Proof.
  unfold app, load_model. rewrite Hload.
  destruct e; [now elim Hother | reflexivity | reflexivity | reflexivity].
Qed.

Lemma load_error_aborts_witness :
  OtherError "invalid load key" <> FileNotFoundError /\
  outcome (app (click (Raise (OtherError "invalid load key")) kenya)) =
    Raise (OtherError "invalid load key").
Proof.
  assert (Hne : OtherError "invalid load key" <> FileNotFoundError) by discriminate.
  split; [exact Hne |].
  rewrite (@load_error_aborts (click (Raise (OtherError "invalid load key")) kenya)
             (OtherError "invalid load key") eq_refl Hne).
  reflexivity.
Defined.

(** X11.  Without a click the run makes no prediction: with a model loaded
    it writes the head of the page, the sidebar and the footer,
    whatever the model is, and completes. *)
Theorem idle_page (s : session) (m : model)
  (Hload : joblib_load s = Ok m)
  (Hidle : clicked s = false) :
  app s = (page_head (form s) ++ page_tail, Ok tt).
Proof. rewrite (app_loaded s Hload), Hidle. reflexivity. Qed.

Lemma idle_page_witness :
  clicked {| joblib_load := Ok rejecting_model; form := kenya; clicked := false |} = false /\
  app {| joblib_load := Ok rejecting_model; form := kenya; clicked := false |} =
    (page_head kenya ++ page_tail, Ok tt).
Proof.
  split; [reflexivity |].
  exact (@idle_page {| joblib_load := Ok rejecting_model; form := kenya; clicked := false |}
           rejecting_model eq_refl eq_refl).
Defined.

(** X12.  A finite prediction: the run completes and writes, between the
    head of the page and the sidebar, the success message, the metric
    with [int(prediction)] and the sentence with the entered name and
    year; it writes no error. *)
Theorem prediction_page (s : session) (m : model) (v : frame) (z : Z)
  (Hload : joblib_load s = Ok m)
  (Hclick : clicked s = true)
  (Hv : features (form s) (training_columns m) = Ok v)
  (Hp : predict m v = Ok (Finite z)) :
  app s =
    (page_head (form s) ++
     [ success (Text "Prediction Complete!"); markdown "---";
       metric "Predicted Population" z; markdown "---";
       info (Approximately (country_name (form s)) z (year (form s))) ] ++
     page_tail,
     Ok tt) /\
  existsb is_error (written (app s)) = false.
Proof.
  assert (Hon : on_predict m (form s) =
                ([ success (Text "Prediction Complete!"); markdown "---";
                   metric "Predicted Population" z; markdown "---";
                   info (Approximately (country_name (form s)) z (year (form s))) ],
                 Ok tt)).
  { rewrite (on_predict_features m (form s) Hv), show_prediction_written, Hp.
    reflexivity. }
  rewrite (app_loaded s Hload), Hclick, Hon.
  split; reflexivity.
Qed.

Lemma prediction_page_witness :
  features kenya (training_columns bare_model) = Ok (one_hot kenya) /\
  In (metric "Predicted Population" 53771300)
     (written (app (click (Ok bare_model) kenya))).
Proof.
  split; [reflexivity |].
  destruct (@prediction_page (click (Ok bare_model) kenya) bare_model
              (one_hot kenya) 53771300 eq_refl eq_refl eq_refl eq_refl) as [H _].
  rewrite H. unfold written. cbn [fst]. apply in_or_app. right.
  simpl. tauto.
Defined.

(** What the button branch can write, by what [predict] and the
    truth value of the names do. *)
Lemma on_predict_written (m : model) (raw : raw_input) (v : frame) :
  features raw (training_columns m) = Ok v ->
  on_predict m raw =
  match predict m v with
  | Ok (Finite z) =>
      ([ success (Text "Prediction Complete!"); markdown "---";
         metric "Predicted Population" z; markdown "---";
         info (Approximately (country_name raw) z (year raw)) ],
       Ok tt)
  | Ok NaN =>
      let (out, r) :=
        report_failure v (training_columns m)
          (ValueError "cannot convert float NaN to integer") in
      ([success (Text "Prediction Complete!"); markdown "---"] ++ out, r)
  | Raise e => report_failure v (training_columns m) e
  end.
Proof.
  intros Hv. rewrite (on_predict_features m raw Hv), show_prediction_written.
  destruct (predict m v) as [[z |] | e]; unfold try_except.
  - reflexivity.
  - destruct (report_failure _ _ _) as [out r]. reflexivity.
  - destruct (report_failure _ _ _) as [out r]. reflexivity.
Qed.

Lemma on_predict_no_footer (m : model) (raw : raw_input) :
  existsb is_footer (written (on_predict m raw)) = false.
Proof.
  destruct (features_defined raw (training_columns m)) as [v Hv].
  rewrite (on_predict_written m raw Hv).
  destruct (predict m v) as [[z |] | e]; [reflexivity | |];
    rewrite report_failure_written; destruct (truth (training_columns m));
    reflexivity.
Qed.


(** X14.  A prediction that is not a number: [int(prediction)] raises
    inside the [try], after line 86 has run, so the page shows the
    success message "Prediction Complete!" and then the error message
    of the handler, and no metric. *)
Theorem nan_prediction_page (s : session) (m : model) (v : frame)
  (Hload : joblib_load s = Ok m)
  (Hclick : clicked s = true)
  (Hv : features (form s) (training_columns m) = Ok v)
  (Hp : predict m v = Ok NaN) :
  (exists rest,
     written (app s) =
     page_head (form s) ++
     [ success (Text "Prediction Complete!"); markdown "---";
       error (PredictionFailed (ValueError "cannot convert float NaN to integer")) ] ++
     rest) /\
  existsb is_metric (written (app s)) = false.
Proof.
  rewrite (app_loaded s Hload), Hclick, (on_predict_written m (form s) Hv), Hp.
  rewrite report_failure_written.
  destruct (truth (training_columns m)); split; try reflexivity;
    eexists; unfold written; cbn [fst app]; reflexivity.
Qed.

Lemma nan_prediction_page_witness :
  predict (constant_model None (Ok NaN)) (one_hot kenya) = Ok NaN /\
  existsb is_metric (written (app (click (Ok (constant_model None (Ok NaN))) kenya))) = false.
Proof.
  split; [reflexivity |].
  exact (proj2 (@nan_prediction_page (click (Ok (constant_model None (Ok NaN))) kenya)
                  (constant_model None (Ok NaN)) (one_hot kenya)
                  eq_refl eq_refl eq_refl eq_refl)).
Defined.

(** X15.  A rejected vector whose names are a list (also the [[]] of
    line 70) or an array of exactly one name: the handler writes the
    error, the shape and the count (Unknown for the empty list and
    for an empty name), and the run completes with the sidebar and
    the footer.  The shape's column count is the schema's length, or
    4 without a schema. *)
Theorem rejected_run_report (s : session) (m : model) (v : frame) (e : exn)
  (Hload : joblib_load s = Ok m)
  (Hclick : clicked s = true)
  (Hnames : (exists l, training_columns m = PyList l) \/
            (exists x, training_columns m = NdArray [x]))
  (Hv : features (form s) (training_columns m) = Ok v)
  (Hp : predict m v = Raise e) :
  exists known,
    truth (training_columns m) = Ok known /\
    (known = true <->
     (exists n ns, training_columns m = PyList (n :: ns)) \/
     (exists x, training_columns m = NdArray [x] /\ x <> "")) /\
    app s =
      (page_head (form s) ++
       [ error (PredictionFailed e); write (Text "**Debug Info:**");
         write (InputShape (1, length v));
         write (ModelExpects (expects (training_columns m) known)) ] ++
       page_tail,
       Ok tt) /\
    length v = (if Nat.eqb (len (training_columns m)) 0 then 4
                else len (training_columns m)).
Proof.
  assert (Htruth : exists known,
            truth (training_columns m) = Ok known /\
            (known = true <->
             (exists n ns, training_columns m = PyList (n :: ns)) \/
             (exists x, training_columns m = NdArray [x] /\ x <> ""))).
  { destruct Hnames as [[l ->] | [x ->]].
    - destruct l as [| n ns]; eexists; (split; [reflexivity |]); simpl.
      + split; [discriminate |].
        intros [[n [ns H]] | [x [H _]]]; discriminate.
      + split; [intros _; left; now exists n, ns | reflexivity].
    - eexists. split; [reflexivity |].
      destruct (String.eqb_spec x "") as [-> | Hx]; simpl.
      + split; [discriminate |].
        intros [[n [ns H]] | [x [H Hx]]]; [discriminate |].
        injection H as <-. now elim Hx.
      + split; [intros _; right; exists x; now split | reflexivity]. }
  destruct Htruth as [known [Htruth Hknown]].
  exists known. split; [exact Htruth |]. split; [exact Hknown |]. split.
  - rewrite (app_loaded s Hload), Hclick, (on_predict_written m (form s) Hv), Hp.
    rewrite report_failure_written, Htruth. reflexivity.
  - unfold len. destruct (items (training_columns m)) as [| n0 rest] eqn:E.
    + rewrite features_empty in Hv by assumption. injection Hv as <-. reflexivity.
    + rewrite features_schema in Hv by (rewrite E; discriminate).
      injection Hv as <-. unfold expected_vector. now rewrite length_map, E.
Qed.

Lemma rejected_run_report_witness :
  (exists l, training_columns rejecting_list_model = PyList l) /\
  outcome (app (click (Ok rejecting_list_model) kenya)) = Ok tt /\
  exists n, In (write (ModelExpects n))
               (written (app (click (Ok rejecting_list_model) kenya))).
Proof.
  assert (Hl : exists l, training_columns rejecting_list_model = PyList l)
    by (eexists; reflexivity).
  split; [exact Hl |].
  destruct (@rejected_run_report (click (Ok rejecting_list_model) kenya)
              rejecting_list_model
              [("date", VInt 2020); ("countryiso3code_USA", VInt 0)]
              (ValueError "could not convert string to float")
              eq_refl eq_refl (or_introl Hl) eq_refl eq_refl)
    as [known [_ [_ [H _]]]].
  rewrite H. split; [reflexivity |].
  exists (expects (training_columns rejecting_list_model) known).
  unfold written. cbn [fst]. apply in_or_app. right. simpl. tauto.
Defined.

(** X16.  A rejected vector under a fitted estimator of two or more
    feature names: the handler writes the error and the shape, then
    line 110 raises; the run ends there with that [ValueError], with
    neither the count nor the sidebar nor the footer. *)
Theorem rejected_array_escapes (s : session) (m : model) (v : frame) (e : exn)
        (a b : string) (rest : list string)
  (Hload : joblib_load s = Ok m)
  (Hclick : clicked s = true)
  (Hnames : feature_names_in_ m = Some (NdArray (a :: b :: rest)))
  (Hv : features (form s) (training_columns m) = Ok v)
  (Hp : predict m v = Raise e) :
  app s =
    (page_head (form s) ++
     [ error (PredictionFailed e); write (Text "**Debug Info:**");
       write (InputShape (1, S (S (length rest)))) ],
     Raise ambiguous).
Proof.
  assert (Htc : training_columns m = NdArray (a :: b :: rest))
    by (unfold training_columns; now rewrite Hnames).
  assert (Hlen : length v = S (S (length rest))).
  { rewrite features_schema in Hv by (rewrite Htc; discriminate).
    injection Hv as <-. unfold expected_vector. now rewrite length_map, Htc. }
  rewrite (app_loaded s Hload), Hclick, (on_predict_written m (form s) Hv), Hp.
  rewrite report_failure_written, Htc. unfold shape. rewrite Hlen. reflexivity.
Qed.

Lemma rejected_array_escapes_witness :
  feature_names_in_ rejecting_model =
    Some (NdArray ["date"; "countryiso3code_USA"]) /\
  outcome (app (click (Ok rejecting_model) kenya)) = Raise ambiguous.
Proof.
  split; [reflexivity |].
  rewrite (@rejected_array_escapes (click (Ok rejecting_model) kenya) rejecting_model
             [("date", VInt 2020); ("countryiso3code_USA", VInt 0)]
             (ValueError "could not convert string to float")
             "date" "countryiso3code_USA" []
             eq_refl eq_refl eq_refl eq_refl eq_refl).
  reflexivity.
Defined.

(** X17.  Once a model is loaded, the only exception that can leave a
    run is a [ValueError] of line 110: the alignment and the
    prediction never end a run, and a run that does not complete was
    clicked, got no finite prediction and has its names in an array
    that does not hold exactly one name.  (For the empty array the
    run ends that way under NumPy 2.2 and later and completes under
    earlier versions; the statement admits both.) *)
Theorem loaded_run_outcome (s : session) (m : model)
  (Hload : joblib_load s = Ok m) :
  outcome (app s) = Ok tt \/
  ((exists msg, outcome (app s) = Raise (ValueError msg)) /\
   clicked s = true /\
   (exists l, training_columns m = NdArray l /\ length l <> 1) /\
   (forall v z, features (form s) (training_columns m) = Ok v ->
                predict m v <> Ok (Finite z))).
Proof.
  rewrite (app_loaded s Hload).
  destruct (clicked s) eqn:Hclick; [| now left].
  destruct (features_defined (form s) (training_columns m)) as [v Hv].
  rewrite (on_predict_written m (form s) Hv).
  assert (Hcase : forall e0,
            outcome (report_failure v (training_columns m) e0) = Ok tt \/
            ((exists msg,
                outcome (report_failure v (training_columns m) e0) =
                Raise (ValueError msg)) /\
             exists l, training_columns m = NdArray l /\ length l <> 1)).
  { intros e0. rewrite report_failure_written.
    destruct (training_columns m) as [l | [| a [| b rest]]]; cbn; try (now left).
    - right. split; [eexists; reflexivity |]. exists []. split; [reflexivity | discriminate].
    - right. split; [eexists; reflexivity |]. exists (a :: b :: rest).
      split; [reflexivity | discriminate]. }
  destruct (predict m v) as [[z |] | e] eqn:Hp.
  - now left.
  - destruct (Hcase (ValueError "cannot convert float NaN to integer"))
      as [Hok | [[msg Hr] Harr]].
    + left. destruct (report_failure _ _ _) as [out r]. exact Hok.
    + right. split; [exists msg; destruct (report_failure _ _ _) as [out r]; exact Hr |].
      split; [reflexivity |]. split; [exact Harr |].
      intros v' z Hv'. rewrite Hv in Hv'. injection Hv' as <-. rewrite Hp. discriminate.
  - destruct (Hcase e) as [Hok | [[msg Hr] Harr]].
    + left. exact Hok.
    + right. split; [exists msg; exact Hr |]. split; [reflexivity |].
      split; [exact Harr |].
      intros v' z Hv'. rewrite Hv in Hv'. injection Hv' as <-. rewrite Hp. discriminate.
Qed.

Lemma loaded_run_outcome_witness :
  joblib_load (click (Ok rejecting_model) kenya) = Ok rejecting_model /\
  (outcome (app (click (Ok rejecting_model) kenya)) = Ok tt \/
   exists msg, outcome (app (click (Ok rejecting_model) kenya)) = Raise (ValueError msg)).
Proof.
  split; [reflexivity |].
  destruct (@loaded_run_outcome (click (Ok rejecting_model) kenya)
              rejecting_model eq_refl) as [H | [H _]].
  - left. exact H.
  - right. exact H.
Defined.

(** X18.  The footer is on the page exactly when the run completes: every
    run that ends with an exception stops before the sidebar and the
    footer, and every completed run, with or without a model, writes
    them. *)
Theorem footer_iff_completes (s : session) :
  existsb is_footer (written (app s)) = true <-> outcome (app s) = Ok tt.
Proof.
  destruct (joblib_load s) as [m | e] eqn:Hload.
  - rewrite (app_loaded s Hload). destruct (clicked s).
    + pose proof (on_predict_no_footer m (form s)) as Hnf.
      destruct (on_predict m (form s)) as [out [[] | e]]; unfold written, outcome in *;
        cbn [fst snd] in *; rewrite !existsb_app, Hnf.
      * rewrite page_tail_footer, !orb_true_r. tauto.
      * cbn. split; discriminate.
    + unfold written, outcome. cbn [fst snd].
      rewrite existsb_app, page_tail_footer, orb_true_r. tauto.
  - unfold app, load_model. rewrite Hload.
    destruct e; cbn; split; (reflexivity || discriminate).
Qed.

(** X19.  The script consults the model only through [feature_names_in_]
    and through [predict] on the aligned vector: two loaded models
    that agree there give the same page and the same outcome for the
    same form state. *)
Theorem model_consulted_at_vector (s1 s2 : session) (m1 m2 : model)
  (Hload1 : joblib_load s1 = Ok m1)
  (Hload2 : joblib_load s2 = Ok m2)
  (Hform : form s1 = form s2)
  (Hclick : clicked s1 = clicked s2)
  (Hnames : feature_names_in_ m1 = feature_names_in_ m2)
  (Hpredict : forall v, features (form s1) (training_columns m1) = Ok v ->
                        predict m1 v = predict m2 v) :
  app s1 = app s2.
Proof.
  assert (Htc : training_columns m1 = training_columns m2)
    by (unfold training_columns; now rewrite Hnames).
  rewrite (app_loaded s1 Hload1), (app_loaded s2 Hload2), <- Hclick, <- Hform.
  destruct (clicked s1); [| reflexivity].
  destruct (features_defined (form s1) (training_columns m1)) as [v Hv].
  assert (Hon : on_predict m1 (form s1) = on_predict m2 (form s1)).
  { rewrite (on_predict_written m1 (form s1) Hv).
    rewrite Htc in Hv. rewrite (on_predict_written m2 (form s1) Hv).
    rewrite <- Htc in Hv. now rewrite (Hpredict v Hv), Htc. }
  now rewrite Hon.
Qed.

Lemma model_consulted_at_vector_witness :
  feature_names_in_ bare_model = feature_names_in_ other_bare_model /\
  app (click (Ok bare_model) kenya) = app (click (Ok other_bare_model) kenya).
Proof.
  split; [reflexivity |].
  apply (@model_consulted_at_vector (click (Ok bare_model) kenya)
           (click (Ok other_bare_model) kenya) bare_model other_bare_model);
    try reflexivity.
  intros v Hv. injection Hv as <-. reflexivity.
Defined.
